(** * sl-monitor: the disruption reconciliation and notification engine

    A shallow embedding of the three monitor scripts of the repository

      - [sl_monitor_gtfs.py]          (module [GTFS]),
      - [sl_monitor_simple.py]        (module [Simple]),
      - [sl_monitor_ultra_simple.py]  (module [UltraSimple]),

    and the properties of one poll cycle: how the change between the
    persisted state and the current disruptions is classified, what is
    composed and to which channels it goes, and what is persisted.

    A cycle is a function of what the scripts read from the outside: the
    result of the fetch, the content of the state file, the clock, whether
    the e-mail account is configured and whether the state file can be
    written.  What a cycle does to the outside is returned as a record: the
    notifications handed to each channel, the state file afterwards and,
    in the identifier variant, whether an exception left the cycle.  Log
    lines are left out. *)

From Stdlib Require Import Strings.String Strings.Byte NArith ZArith List Lia
  DecimalString.
From stdpp Require Import base decidable countable list gmap.

Local Open Scope list_scope.

(** ** Python strings

    A Python [str] is a sequence of code points: [len] counts code points
    and slicing cuts between them.  The model is a list of code points;
    the literals of the scripts are written as UTF-8 text and decoded. *)

Definition pystr : Type := list N.

Fixpoint utf8_decode (bs : list N) : pystr :=
  match bs with
  | [] => []
  | b0 :: r0 =>
      if (b0 <? 128)%N then b0 :: utf8_decode r0
      else if (b0 <? 224)%N then
        match r0 with
        | b1 :: r1 => ((b0 mod 32) * 64 + b1 mod 64)%N :: utf8_decode r1
        | _ => []
        end
      else if (b0 <? 240)%N then
        match r0 with
        | b1 :: b2 :: r2 =>
            ((b0 mod 16) * 4096 + (b1 mod 64) * 64 + b2 mod 64)%N
              :: utf8_decode r2
        | _ => []
        end
      else
        match r0 with
        | b1 :: b2 :: b3 :: r3 =>
            ((b0 mod 8) * 262144 + (b1 mod 64) * 4096
             + (b2 mod 64) * 64 + b3 mod 64)%N :: utf8_decode r3
        | _ => []
        end
  end.

(** The literal [s] of a script as a Python string. *)
Definition py (s : string) : pystr :=
  utf8_decode (List.map Byte.to_N (list_byte_of_string s)).

(** ["\n"] *)
Definition nl : pystr := [10%N].

(** [str(n)] for a non-negative integer, as f-strings print it. *)
Definition str_of_nat (n : nat) : pystr :=
  py (NilZero.string_of_uint (Nat.to_uint n)).

(** Truthiness of a string or of a list: [if s:] holds for a non-empty one. *)
Definition truthy {A : Type} (l : list A) : bool :=
  match l with [] => false | _ :: _ => true end.

(** [s == t] on strings. *)
Definition str_eqb (s t : pystr) : bool := bool_decide (s = t).

(** [s.startswith(p)], the step of the substring search. *)
Fixpoint starts_with (p s : pystr) : bool :=
  match p, s with
  | [], _ => true
  | _ :: _, [] => false
  | a :: p', b :: s' => if (a =? b)%N then starts_with p' s' else false
  end.

(** [needle in hay]: [needle] occurs in [hay] as a contiguous run. *)
Fixpoint str_in (needle hay : pystr) : bool :=
  if starts_with needle hay then true
  else match hay with
       | [] => false
       | _ :: hay' => str_in needle hay'
       end.

(** [s[:n]] for [n >= 0]. *)
Definition slice_to (n : nat) (s : pystr) : pystr := firstn n s.

(** The truncation both composers apply to a description:
    [if len(desc) > bound: desc = desc[:bound] + "..."]. *)
Definition truncate (bound : nat) (desc : pystr) : pystr :=
  if Nat.ltb bound (length desc) then slice_to bound desc ++ py "..." else desc.

(** ** The outside of a cycle *)

(** What the three scripts persist in [sl_state.json] is built by their
    [save_state]; what a later cycle finds there is the file, gone, not
    readable as JSON, or a stored object. *)
Inductive state_file (state : Type) : Type :=
  | Missing
  | Unreadable
  | Stored (s : state).
Arguments Missing {state}.
Arguments Unreadable {state}.
Arguments Stored {state} s.

(** [open(STATE_FILE, "w")] followed by [json.dump]: both go through, the
    [open] raises (the file stays as it was), or the dump raises after the
    file was truncated. *)
Inductive write_outcome : Type := Written | OpenFailed | DumpFailed.

Definition write_file {state : Type} (w : write_outcome)
    (old : state_file state) (s : state) : state_file state :=
  match w with
  | Written => Stored s
  | OpenFailed => old
  | DumpFailed => Unreadable
  end.

(** The delivery mechanisms the scripts call. *)
Inductive channel : Type := Desktop | Email.

Global Instance channel_eq_dec : EqDecision channel.
Proof. solve_decision. Defined.

(** One call of a delivery function with the composed title and message. *)
Record dispatch : Type := Dispatch {
  via : channel;
  title_of : pystr;
  message_of : pystr
}.

(** The change a cycle finds. *)
Inductive transition : Type := New | Updated | Ongoing | Resolved | NoChange.

Global Instance transition_eq_dec : EqDecision transition.
Proof. solve_decision. Defined.

(** What a cycle reads from its host.  [datetime.fromtimestamp] does not
    take every timestamp: it raises [OverflowError] or [OSError] outside
    the range of the platform, and [ValueError] outside the years 1 to
    9999 of the local time.  [fromtimestamp] is [None] there. *)
Record host : Type := Host {
  fromtimestamp : Z -> option pystr; (* datetime.fromtimestamp(t).isoformat() *)
  now_isoformat : pystr;       (* datetime.now().isoformat() *)
  now_strftime : pystr;        (* datetime.now().strftime('%Y-%m-%d %H:%M:%S') *)
  email_configured : bool;     (* all([EMAIL_FROM, EMAIL_TO, EMAIL_PASSWORD]) *)
  write : write_outcome
}.

(** [send_email_notification]: returns at once when the account is not
    configured, else hands the message to SMTP. *)
Definition send_email_notification (h : host) (subject body : pystr)
    : list dispatch :=
  if email_configured h then [Dispatch Email subject body] else [].

(** [send_desktop_notification]: the title and the message go to the
    notifier of the platform.  What the notifier is given of the message
    (its first five lines, 300 characters at most) and how each platform
    is called is in [Notifier] below. *)
Definition send_desktop_notification (title message : pystr) : list dispatch :=
  [Dispatch Desktop title message].

(** ** [sl_monitor_gtfs.py] *)

Module GTFS.

(** [LINE_TO_MONITOR], [LINE_NAME] *)
Definition LINE_TO_MONITOR : pystr := py "29".
Definition LINE_NAME : pystr := py "Näsbyparkslinjen".

(** *** The feed, as the GTFS Realtime bindings present it

    Optional fields are options: [HasField] is [Some]. *)

Record translation : Type := Translation {
  language : pystr;
  text : pystr
}.

Record time_range : Type := TimeRange {
  range_start : option Z;
  range_end : option Z
}.

Record entity_selector : Type := EntitySelector {
  route_id : option pystr
}.

Record alert : Type := Alert {
  informed_entity : list entity_selector;
  header_text : option (list translation);
  description_text : option (list translation);
  active_period : list time_range;
  alert_cause : option Z;
  alert_effect : option Z
}.

Record feed_entity : Type := FeedEntity {
  entity_id : pystr;
  entity_alert : option alert
}.

Record feed_message : Type := FeedMessage {
  entity : list feed_entity
}.

(** *** The disruption dictionaries [filter_line_29] builds *)

Record period : Type := Period {
  period_start : pystr;  (* 'start', the empty string when there is none *)
  period_end : pystr     (* 'end' *)
}.

Record disruption : Type := Disruption {
  alert_id : pystr;
  header : pystr;
  description : pystr;
  active_periods : list period;
  cause : Z;
  effect : Z
}.

(** The inner loop of [filter_line_29] over [alert.informed_entity]: the
    flag [affects_line_29] is set, and the loop left, at the first entity
    with a [route_id] that has the line in it. *)
Fixpoint affects_line_29 (informed : list entity_selector) : bool :=
  match informed with
  | [] => false
  | informed_entity :: rest =>
      match route_id informed_entity with
      | Some r =>
          if str_in LINE_TO_MONITOR r || str_eqb r LINE_TO_MONITOR then true
          else affects_line_29 rest
      | None => affects_line_29 rest
      end
  end.

(** The loops over [translation]: a Swedish text replaces what was picked,
    any text is taken while nothing is picked. *)
Definition pick_text (translations : list translation) : pystr :=
  fold_left
    (fun picked t =>
       if str_eqb (language t) (py "sv") || negb (truthy picked)
       then text t else picked)
    translations [].

Definition text_of (field : option (list translation)) : pystr :=
  match field with
  | Some translations => pick_text translations
  | None => []
  end.

(** One turn of the loop over [alert.active_period]: the start, then the
    end, each converted when the period has it.  [None]: the conversion of
    a bound raises, and nothing in [filter_line_29] or in [run] catches
    it. *)
Definition period_of (h : host) (p : time_range) : option period :=
  start ← match range_start p with
          | Some t => fromtimestamp h t
          | None => Some []
          end;
  end_ ← match range_end p with
         | Some t => fromtimestamp h t
         | None => Some []
         end;
  Some {| period_start := start; period_end := end_ |}.

(** The dictionary built for an entity whose alert affects the line;
    [None] when a period of the alert raises. *)
Definition disruption_of (h : host) (e : feed_entity) (a : alert)
    : option disruption :=
  let header := text_of (header_text a) in
  let description := text_of (description_text a) in
  active_period ← mapM (period_of h) (active_period a);
  Some {| alert_id := entity_id e;
          header := if truthy header then header else py "Störning";
          description := description;
          active_periods := active_period;
          cause := default 0%Z (alert_cause a);
          effect := default 0%Z (alert_effect a) |}.

(** The outer loop of [filter_line_29], appending to [line_disruptions];
    [None] when the loop is left by an exception. *)
Fixpoint filter_entities (h : host) (entities : list feed_entity)
    (line_disruptions : list disruption) : option (list disruption) :=
  match entities with
  | [] => Some line_disruptions
  | e :: rest =>
      match entity_alert e with
      | None => filter_entities h rest line_disruptions
      | Some a =>
          if affects_line_29 (informed_entity a)
          then
            disruption ← disruption_of h e a;
            filter_entities h rest (line_disruptions ++ [disruption])
          else filter_entities h rest line_disruptions
      end
  end.

(** [filter_line_29(feed)]: the list it returns, or [None] when it
    raises. *)
Definition filter_line_29 (h : host) (feed : option feed_message)
    : option (list disruption) :=
  match feed with
  | None => Some []
  | Some f => filter_entities h (entity f) []
  end.

(** *** The state file *)

(** The JSON object of the state file.  A key may be missing: [run] reads
    ["alert_ids"] with a default.  The values are taken to have the shapes
    [save_state] writes. *)
Record state : Type := State {
  timestamp : option pystr;
  disruptions : option (list disruption);
  alert_ids : option (list pystr)
}.

(** [{}] *)
Definition empty_state : state :=
  {| timestamp := None; disruptions := None; alert_ids := None |}.

Definition load_previous_state (file : state_file state) : state :=
  match file with
  | Missing => empty_state          (* STATE_FILE.exists() is false *)
  | Unreadable => empty_state       (* the exception is logged *)
  | Stored s => s
  end.

(** The dictionary [save_state] builds. *)
Definition state_of (h : host) (ds : list disruption) : state :=
  {| timestamp := Some (now_isoformat h);
     disruptions := Some ds;
     alert_ids := Some (List.map alert_id ds) |}.

Definition save_state (h : host) (file : state_file state)
    (ds : list disruption) : state_file state :=
  write_file (write h) file (state_of h ds).

(** *** Composing and sending *)

(** What one turn of the loop of [format_disruption_message] appends. *)
Definition format_periods (periods : list period) : pystr :=
  concat (List.map
    (fun p =>
       (if truthy (period_start p)
        then py "   Från: " ++ period_start p ++ nl else [])
       ++ (if truthy (period_end p)
           then py "   Till: " ++ period_end p ++ nl else []))
    periods).

Definition format_one (idx : nat) (d : disruption) : pystr :=
  (nl ++ py "🔴 Störning " ++ str_of_nat idx ++ py ":" ++ nl)
  ++ (py "   " ++ header d ++ nl)
  ++ (if truthy (description d)
      then py "   " ++ truncate 300 (description d) ++ nl else [])
  ++ format_periods (active_periods d)
  ++ nl.

(** [for idx, d in enumerate(disruptions, 1): message += ...] *)
Fixpoint format_from (idx : nat) (ds : list disruption) (message : pystr)
    : pystr :=
  match ds with
  | [] => message
  | d :: rest => format_from (S idx) rest (message ++ format_one idx d)
  end.

Definition format_disruption_message (ds : list disruption) : pystr :=
  format_from 1 ds [].

Definition notification_title (notification_type : pystr) : pystr :=
  if str_eqb notification_type (py "new") then
    py "⚠️ NY störning på linje " ++ LINE_TO_MONITOR
      ++ py " (" ++ LINE_NAME ++ py ")"
  else if str_eqb notification_type (py "updated") then
    py "🔄 Uppdaterad störning på linje " ++ LINE_TO_MONITOR
  else if str_eqb notification_type (py "ongoing") then
    py "ℹ️ Pågående störning på linje " ++ LINE_TO_MONITOR
  else
    py "✅ Störning löst på linje " ++ LINE_TO_MONITOR.

Definition full_message (ds : list disruption) (notification_type : pystr)
    : pystr :=
  let title := notification_title notification_type in
  if truthy ds then
    title ++ nl ++ format_disruption_message ds ++ nl
      ++ py "Kontrollera: https://sl.se/reseplanering/trafiklaget"
  else
    title ++ nl ++ nl ++ py "Alla störningar på Näsbyparkslinjen har lösts!".

Definition send_notification (h : host) (ds : list disruption)
    (notification_type : pystr) : list dispatch :=
  let title := notification_title notification_type in
  let message := full_message ds notification_type in
  send_desktop_notification title message
  ++ (if bool_decide (notification_type ∈ [py "new"; py "updated"])
      then send_email_notification h title message else []).

(** *** One cycle *)

Record cycle : Type := Cycle {
  found : option transition;   (* the branch taken; [None]: none was reached *)
  relevant : list disruption;  (* the records of that branch *)
  sent : list dispatch;
  saved : option state;        (* what [save_state] was asked to write *)
  file_after : state_file state;
  raised : bool                (* an exception left [run] *)
}.

Definition previous_ids_of (previous_state : state) : gset pystr :=
  list_to_set (default [] (alert_ids previous_state)).

Definition current_ids_of (current_disruptions : list disruption) : gset pystr :=
  list_to_set (List.map alert_id current_disruptions).

(** Truthiness of a set. *)
Definition some_id (ids : gset pystr) : bool := bool_decide (ids ≠ ∅).

(** The analysis of [run], from [new_ids = ...] to the last [else]: the
    branch, its records and what it sends. *)
Definition analyse (h : host) (previous_ids : gset pystr)
    (current_disruptions : list disruption)
    : transition * list disruption * list dispatch :=
  let current_ids := current_ids_of current_disruptions in
  let new_ids := current_ids ∖ previous_ids in
  let resolved_ids := previous_ids ∖ current_ids in
  if truthy current_disruptions then
    if some_id new_ids then
      let new_disruptions :=
        filter (fun d => alert_id d ∈ new_ids) current_disruptions in
      (New, new_disruptions, send_notification h new_disruptions (py "new"))
    else if some_id resolved_ids && some_id current_ids then
      (Updated, current_disruptions,
       send_notification h current_disruptions (py "updated"))
    else
      (Ongoing, current_disruptions, [])
  else
    if some_id previous_ids then
      (Resolved, [], send_notification h [] (py "resolved"))
    else
      (NoChange, [], []).

(** [fetched] is what [fetch_disruptions] returns: the parsed feed, or
    [None] without an API key and on every failure of the request.  When
    [filter_line_29] raises, the exception leaves [run] before the state
    file is read: nothing is sent and nothing is saved. *)
Definition run (h : host) (fetched : option feed_message)
    (file : state_file state) : cycle :=
  match fetched with
  | None =>
      {| found := None; relevant := []; sent := [];
         saved := None; file_after := file; raised := false |}
  | Some feed =>
      match filter_line_29 h (Some feed) with
      | None =>
          {| found := None; relevant := []; sent := [];
             saved := None; file_after := file; raised := true |}
      | Some current_disruptions =>
          let previous_state := load_previous_state file in
          let previous_ids := previous_ids_of previous_state in
          let '(t, records, dispatches) :=
            analyse h previous_ids current_disruptions in
          {| found := Some t; relevant := records; sent := dispatches;
             saved := Some (state_of h current_disruptions);
             file_after := save_state h file current_disruptions;
             raised := false |}
      end
  end.

End GTFS.

(** ** [sl_monitor_simple.py]

    This script has no identifiers: it compares the number of disruptions
    with the persisted [count].  A cycle takes the list its
    [filter_line_29] produces; the filter itself is in [Feed] below, the
    requests of its fetch are not modelled. *)

Module Simple.

Definition LINE_TO_MONITOR : pystr := py "29".
Definition LINE_NAME : pystr := py "Näsbyparkslinjen".

(** The dictionaries of [filter_line_29]; [d.get] reads a key that may be
    missing. *)
Record disruption : Type := Disruption {
  header : option pystr;
  details : option pystr;
  severity : option Z;
  created : option pystr   (* 'timestamp' *)
}.

Record state : Type := State {
  timestamp : option pystr;
  disruptions : option (list disruption);
  count : option Z
}.

Definition empty_state : state :=
  {| timestamp := None; disruptions := None; count := None |}.

Definition load_previous_state (file : state_file state) : state :=
  match file with
  | Missing => empty_state
  | Unreadable => empty_state
  | Stored s => s
  end.

Definition state_of (h : host) (ds : list disruption) : state :=
  {| timestamp := Some (now_isoformat h);
     disruptions := Some ds;
     count := Some (Z.of_nat (length ds)) |}.

Definition save_state (h : host) (file : state_file state)
    (ds : list disruption) : state_file state :=
  write_file (write h) file (state_of h ds).

Definition notification_title (notification_type : pystr) : pystr :=
  if str_eqb notification_type (py "new") then
    py "⚠️ NY störning på linje " ++ LINE_TO_MONITOR
      ++ py " (" ++ LINE_NAME ++ py ")"
  else if str_eqb notification_type (py "resolved") then
    py "✅ Störning löst på linje " ++ LINE_TO_MONITOR
  else
    py "ℹ️ Störning på linje " ++ LINE_TO_MONITOR.

(** What one turn of the loop of [send_notification] appends. *)
Definition format_one (idx : nat) (d : disruption) : pystr :=
  (str_of_nat idx ++ py ". " ++ default (py "Störning") (header d) ++ nl)
  ++ (if truthy (default [] (details d))
      then py "   " ++ truncate 200 (default [] (details d)) ++ nl else [])
  ++ nl.

Fixpoint format_from (idx : nat) (ds : list disruption) (message : pystr)
    : pystr :=
  match ds with
  | [] => message
  | d :: rest => format_from (S idx) rest (message ++ format_one idx d)
  end.

Definition notification_message (ds : list disruption)
    (notification_type : pystr) : pystr :=
  let title := notification_title notification_type in
  if truthy ds then
    format_from 1 ds (title ++ nl ++ nl) ++ nl
      ++ py "Kontrollera: https://sl.se/reseplanering/trafiklaget"
  else
    title ++ nl ++ nl ++ py "Alla störningar på Näsbyparkslinjen har lösts!".

Definition send_notification (h : host) (ds : list disruption)
    (notification_type : pystr) : list dispatch :=
  let title := notification_title notification_type in
  let message := notification_message ds notification_type in
  if bool_decide (notification_type ∈ [py "new"; py "resolved"])
  then send_email_notification h title message else [].

Record cycle : Type := Cycle {
  found : option transition;
  relevant : list disruption;
  sent : list dispatch;
  saved : option state;
  file_after : state_file state
}.

(** The analysis of [run], from [if current_count > 0] to the last [else]. *)
Definition analyse (h : host) (previous_count : Z)
    (current_disruptions : list disruption)
    : transition * list disruption * list dispatch :=
  let current_count := Z.of_nat (length current_disruptions) in
  if (0 <? current_count)%Z then
    if (previous_count =? 0)%Z then
      (New, current_disruptions,
       send_notification h current_disruptions (py "new"))
    else if negb (current_count =? previous_count)%Z then
      (Updated, current_disruptions,
       send_notification h current_disruptions (py "updated"))
    else
      (Ongoing, current_disruptions, [])
  else
    if (0 <? previous_count)%Z then
      (Resolved, [], send_notification h [] (py "resolved"))
    else
      (NoChange, [], []).

(** [fetched] is [filter_line_29(data)], or [None] when [data is None]. *)
Definition run (h : host) (fetched : option (list disruption))
    (file : state_file state) : cycle :=
  match fetched with
  | None =>
      {| found := None; relevant := []; sent := [];
         saved := None; file_after := file |}
  | Some current_disruptions =>
      let previous_state := load_previous_state file in
      let previous_count := default 0%Z (count previous_state) in
      let '(t, records, dispatches) :=
        analyse h previous_count current_disruptions in
      {| found := Some t; relevant := records; sent := dispatches;
         saved := Some (state_of h current_disruptions);
         file_after := save_state h file current_disruptions |}
  end.

End Simple.

(** ** [sl_monitor_ultra_simple.py]

    This script keeps one flag: whether the page mentioned the line among
    the disruptions.  A cycle takes the dictionary
    [check_for_disruptions] returns; the check itself is in [Page]
    below. *)

Module UltraSimple.

Definition LINE_TO_MONITOR : pystr := py "29".
Definition LINE_NAME : pystr := py "Näsbyparkslinjen".
Definition url : pystr := py "https://sl.se/reseplanering/trafiklaget".

Record result : Type := Result {
  has_disruption : option bool;
  context : option (list pystr);
  checked : option pystr   (* 'timestamp' *)
}.

Record state : Type := State {
  timestamp : option pystr;
  had_disruption : option bool
}.

(** [{"had_disruption": False}] *)
Definition default_state : state :=
  {| timestamp := None; had_disruption := Some false |}.

Definition load_previous_state (file : state_file state) : state :=
  match file with
  | Missing => default_state
  | Unreadable => default_state
  | Stored s => s
  end.

Definition state_of (h : host) (has_disruption : bool) : state :=
  {| timestamp := Some (now_isoformat h);
     had_disruption := Some has_disruption |}.

Definition save_state (h : host) (file : state_file state)
    (has_disruption : bool) : state_file state :=
  write_file (write h) file (state_of h has_disruption).

Definition new_subject : pystr :=
  py "⚠️ Störning på linje " ++ LINE_TO_MONITOR ++ py " (" ++ LINE_NAME ++ py ")".

Definition new_body (h : host) (r : result) : pystr :=
  (py "Störning upptäckt på linje " ++ LINE_TO_MONITOR ++ py " - " ++ LINE_NAME
     ++ nl ++ nl)
  ++ (if truthy (default [] (context r))
      then py "Information från SL:" ++ nl
           ++ concat (List.map (fun ctx => py "- " ++ ctx ++ nl)
                        (default [] (context r)))
           ++ nl
      else [])
  ++ (py "Kontrollera: " ++ url ++ nl ++ nl)
  ++ (py "Upptäckt: " ++ now_strftime h).

Definition resolved_subject : pystr :=
  py "✅ Störning löst - Linje " ++ LINE_TO_MONITOR.

Definition resolved_body (h : host) : pystr :=
  (py "Störningen på linje " ++ LINE_TO_MONITOR ++ py " (" ++ LINE_NAME
     ++ py ") verkar vara löst!" ++ nl ++ nl)
  ++ (py "Linje " ++ LINE_TO_MONITOR
        ++ py " nämns inte längre bland störningar på SL:s sida." ++ nl ++ nl)
  ++ (py "Kontrollera: " ++ url ++ nl ++ nl)
  ++ (py "Löst: " ++ now_strftime h).

Record cycle : Type := Cycle {
  found : option transition;
  sent : list dispatch;
  saved : option state;
  file_after : state_file state
}.

Definition analyse (h : host) (had_disruption_before : bool) (r : result)
    : transition * list dispatch :=
  let has_disruption_now := default false (has_disruption r) in
  if has_disruption_now && negb had_disruption_before then
    (New, send_email_notification h new_subject (new_body h r))
  else if negb has_disruption_now && had_disruption_before then
    (Resolved, send_email_notification h resolved_subject (resolved_body h))
  else if has_disruption_now then
    (Ongoing, [])
  else
    (NoChange, []).

Definition run (h : host) (checked_page : option result)
    (file : state_file state) : cycle :=
  match checked_page with
  | None =>
      {| found := None; sent := []; saved := None; file_after := file |}
  | Some r =>
      let previous_state := load_previous_state file in
      let had_disruption_before :=
        default false (had_disruption previous_state) in
      let has_disruption_now := default false (has_disruption r) in
      let '(t, dispatches) := analyse h had_disruption_before r in
      {| found := Some t; sent := dispatches;
         saved := Some (state_of h has_disruption_now);
         file_after := save_state h file has_disruption_now |}
  end.

End UltraSimple.

(** ** What is stored, what is dispatched *)

(** The channels a list of dispatches went to, in the order of the calls. *)
Definition channels (sent : list dispatch) : list channel := List.map via sent.

(** The channels a script has: the desktop notifier needs no account, the
    e-mail needs one. *)
Definition configured_channels (h : host) (script_channels : list channel)
    : list channel :=
  filter (λ c, c = Desktop ∨ email_configured h = true) script_channels.

(** The known ids of a state are the ids of the disruptions it stores. *)
Definition ids_match (s : GTFS.state) : Prop :=
  GTFS.previous_ids_of s
  = GTFS.current_ids_of (default [] (GTFS.disruptions s)).

(** The same for what a cycle would load from the state file. *)
Definition file_ids_match (file : state_file GTFS.state) : Prop :=
  ids_match (GTFS.load_previous_state file).

(** A load that fails: there is no file, or it does not parse. *)
Definition read_fails {state : Type} (file : state_file state) : Prop :=
  file = Missing ∨ file = Unreadable.

(** [block] stands in [body], as one run of text. *)
Definition occurs_in (block body : pystr) : Prop :=
  ∃ pre post, body = pre ++ block ++ post.

(** [shown] is [details] cut to [bound] characters: unchanged when it has
    no more than [bound], else its first [bound] characters followed by the
    ellipsis. *)
Definition cut_to (bound : nat) (details shown : pystr) : Prop :=
  (length details ≤ bound → shown = details)
  ∧ (bound < length details → shown = firstn bound details ++ py "...")
  ∧ length shown ≤ bound + 3.

(** What the body shows of a record: its header line, its details line
    when it has details, its period lines. *)
Definition gtfs_shown (d : GTFS.disruption) (details : pystr) : pystr :=
  (py "   " ++ GTFS.header d ++ nl)
  ++ (if truthy (GTFS.description d) then py "   " ++ details ++ nl else [])
  ++ GTFS.format_periods (GTFS.active_periods d).

Definition simple_shown (d : Simple.disruption) (details : pystr) : pystr :=
  (py ". " ++ default (py "Störning") (Simple.header d) ++ nl)
  ++ (if truthy (default [] (Simple.details d))
      then py "   " ++ details ++ nl else []).

(** The feed entities [filter_line_29] keeps, each with its alert: those
    with an alert that affects the line. *)
Definition kept (e : GTFS.feed_entity)
    : option (GTFS.feed_entity * GTFS.alert) :=
  match GTFS.entity_alert e with
  | Some a =>
      if GTFS.affects_line_29 (GTFS.informed_entity a)
      then Some (e, a) else None
  | None => None
  end.

(** [datetime.fromtimestamp] returns on each bound the period has. *)
Definition bound_converts (h : host) (bound : option Z) : Prop :=
  match bound with
  | Some t => is_Some (fromtimestamp h t)
  | None => True
  end.

Definition converts (h : host) (p : GTFS.time_range) : Prop :=
  bound_converts h (GTFS.range_start p) ∧ bound_converts h (GTFS.range_end p).

(** The resolved notice of the identifier and of the count variant: the
    title, and the message under it. *)
Definition resolved_title : pystr := py "✅ Störning löst på linje 29".

Definition resolved_message : pystr :=
  py "✅ Störning löst på linje 29" ++ nl ++ nl
  ++ py "Alla störningar på Näsbyparkslinjen har lösts!".

(** The resolved notice of the flag variant: the subject, and the text of
    the body up to the time that ends it. *)
Definition flag_resolved_subject : pystr := py "✅ Störning löst - Linje 29".

Definition flag_resolved_text : pystr :=
  py "Störningen på linje 29 (Näsbyparkslinjen) verkar vara löst!" ++ nl ++ nl
  ++ py "Linje 29 nämns inte längre bland störningar på SL:s sida." ++ nl ++ nl
  ++ py "Kontrollera: https://sl.se/reseplanering/trafiklaget" ++ nl ++ nl
  ++ py "Löst: ".

(** One turn of the loops of [filter_line_29] over the translations. *)
Definition pick_step (picked : pystr) (t : GTFS.translation) : pystr :=
  if str_eqb (GTFS.language t) (py "sv") || negb (truthy picked)
  then GTFS.text t else picked.

(** ** More of Python's strings *)

(** [s.split(sep)] for a separator of one character: the pieces between
    the separators, one more than there are separators. *)
Fixpoint split (sep : N) (s : pystr) : list pystr :=
  match s with
  | [] => [[]]
  | c :: rest =>
      if (c =? sep)%N then [] :: split sep rest
      else match split sep rest with
           | piece :: pieces => (c :: piece) :: pieces
           | [] => [[c]]
           end
  end.

(** [sep.join(pieces)] *)
Fixpoint join (sep : pystr) (pieces : list pystr) : pystr :=
  match pieces with
  | [] => []
  | [piece] => piece
  | piece :: rest => piece ++ sep ++ join sep rest
  end.

(** [s.replace(old, new)] for an [old] of one character. *)
Definition replace (old : N) (new : pystr) (s : pystr) : pystr :=
  flat_map (λ c, if (c =? old)%N then new else [c]) s.

(** [l[a:b]] for [0 <= a] and [0 <= b]. *)
Definition slice {A : Type} (a b : nat) (l : list A) : list A :=
  firstn (b - a) (skipn a l).

(** The characters the notifier escapes, and the one it escapes with. *)
Definition double_quote : N := 34%N.
Definition single_quote : N := 39%N.
Definition backslash : N := 92%N.

(** A lower-casing of the letters A to Z and of the capital letters of
    Latin-1, which the Swedish texts of the scripts stay within. *)
Definition latin1_lower (s : pystr) : pystr :=
  List.map
    (λ c, if ((65 <=? c) && (c <=? 90))%N then (c + 32)%N
          else if ((192 <=? c) && (c <=? 222) && negb (c =? 215))%N
               then (c + 32)%N
               else c)
    s.

(** ** [send_desktop_notification] of [sl_monitor_gtfs.py], in full *)

Module Notifier.

(** What the call does on the platform [platform.system()] names: a shell
    command handed to [os.system], a toast, or nothing. *)
Inductive shown : Type :=
  | Command (command : pystr)
  | Toast (title message : pystr)
  | NotShown.

(** [short_msg]: the first five lines of the message, 300 characters at
    most. *)
Definition short_msg (message : pystr) : pystr :=
  firstn 300 (join nl (firstn 5 (split 10 message))).

Definition escape_double (s : pystr) : pystr :=
  replace double_quote [backslash; double_quote] s.

Definition escape_both (s : pystr) : pystr :=
  replace single_quote [backslash; single_quote] (escape_double s).

Definition send_desktop_notification (system title message : pystr) : shown :=
  let short := short_msg message in
  if str_eqb system (py "Darwin") then
    let safe_title := escape_both title in
    let safe_msg := escape_both short in
    Command (py "osascript -e 'display notification " ++ [double_quote]
             ++ safe_msg ++ [double_quote] ++ py " with title "
             ++ [double_quote] ++ safe_title ++ [double_quote] ++ py "' ")
  else if str_eqb system (py "Linux") then
    let safe_title := escape_double title in
    let safe_msg := escape_double short in
    Command (py "notify-send " ++ [double_quote] ++ safe_title
             ++ [double_quote] ++ py " " ++ [double_quote] ++ safe_msg
             ++ [double_quote])
  else if str_eqb system (py "Windows") then
    Toast title short    (* when win10toast can be imported *)
  else
    NotShown.

End Notifier.

(** ** [filter_line_29] and [scrape_sl_website] of [sl_monitor_simple.py]

    [lower] stands for [str.lower]. *)

Module Feed.

Record event : Type := Event {
  Message : option pystr;
  Expanded : option pystr;
  SeverityCode : option Z;
  Created : option pystr
}.

Record traffic_type : Type := TrafficType {
  type_name : option pystr   (* "Type" *)
}.

Record item : Type := Item {
  TrafficTypes : option (list traffic_type);
  Events : option (list event)
}.

(** The dictionary [fetch_disruptions] returns: the answer of the API, or
    what [scrape_sl_website] built.  [other_keys] tells whether it has keys
    besides the three that are read. *)
Record data : Type := Data {
  source : option pystr;
  has_disruption : option bool;
  ResponseData : option (list item);
  other_keys : bool
}.

(** [not data]: the dictionary is empty. *)
Definition is_empty (d : data) : bool :=
  match source d, has_disruption d, ResponseData d with
  | None, None, None => negb (other_keys d)
  | _, _, _ => false
  end.

(** The test on the message and the expanded text of an event. *)
Definition mentions_line (lower : pystr → pystr) (message expanded : pystr)
    : bool :=
  str_in Simple.LINE_TO_MONITOR message
  || str_in Simple.LINE_TO_MONITOR expanded
  || str_in (lower Simple.LINE_NAME) (lower message)
  || str_in (lower Simple.LINE_NAME) (lower expanded).

Definition disruption_of (e : event) : Simple.disruption :=
  {| Simple.header := Some (default [] (Message e));
     Simple.details := Some (default [] (Expanded e));
     Simple.severity := Some (default 0%Z (SeverityCode e));
     Simple.created := Some (default [] (Created e)) |}.

(** The loop over the events of an item, run once for a traffic type. *)
Definition events_for_line (lower : pystr → pystr) (events : list event)
    : list Simple.disruption :=
  flat_map
    (λ e, if mentions_line lower (default [] (Message e))
               (default [] (Expanded e))
          then [disruption_of e] else [])
    events.

(** The loop over the traffic types of an item. *)
Definition item_disruptions (lower : pystr → pystr) (i : item)
    : list Simple.disruption :=
  match TrafficTypes i with
  | None => []
  | Some traffic_types =>
      flat_map
        (λ t, if bool_decide (type_name t = Some (py "bus"))
              then events_for_line lower (default [] (Events i))
              else [])
        traffic_types
  end.

Definition filter_line_29 (lower : pystr → pystr) (h : host) (d : data)
    : list Simple.disruption :=
  if is_empty d then []
  else if bool_decide (source d = Some (py "website_scraping")) then
    if default false (has_disruption d) then
      [{| Simple.header := Some (py "Möjlig störning upptäckt");
          Simple.details :=
            Some (py "Linje 29 nämns på SL:s störningssida. Kontrollera sl.se för detaljer.");
          Simple.severity := None;
          Simple.created := Some (now_isoformat h) |}]
    else []
  else
    match ResponseData d with
    | Some items => flat_map (item_disruptions lower) items
    | None => []
    end.

(** [response]: the status code and the text of the page, or [None] when
    the request raised. *)
Definition scrape_sl_website (lower : pystr → pystr)
    (response : option (Z * pystr)) : option data :=
  match response with
  | None => None
  | Some (status_code, content) =>
      if (status_code =? 200)%Z then
        let mentions_29 :=
          str_in (py "29") content
          || str_in (py "Näsbyparkslinjen") (lower content) in
        let has_disruption :=
          str_in (py "störning") (lower content)
          || str_in (py "förseningar") (lower content) in
        Some {| source := Some (py "website_scraping");
                has_disruption := Some (mentions_29 && has_disruption);
                ResponseData := None;
                other_keys := false |}
      else None
  end.

(** [run], from the fetched dictionary on. *)
Definition run (lower : pystr → pystr) (h : host) (fetched : option data)
    (file : state_file Simple.state) : Simple.cycle :=
  Simple.run h (option_map (filter_line_29 lower h) fetched) file.

End Feed.

(** ** [check_for_disruptions] of [sl_monitor_ultra_simple.py] *)

Module Page.

Definition disruption_words : list pystr :=
  [py "störning"; py "förseningar"; py "inställd"; py "ersättningsbuss";
   py "trafik"; py "problem"; py "avbrott"].

(** The loop over the lines of the page: a line that mentions the line
    gives the five lines around it, joined, when that is more than 50
    characters, cut to 300. *)
Fixpoint collect_context (all_lines : list pystr) (i : nat)
    (lines : list pystr) (relevant_context : list pystr) : list pystr :=
  match lines with
  | [] => relevant_context
  | line :: rest =>
      if str_in (py "29") line || str_in (py "näsbypark") line then
        let context_start := Nat.max 0 (i - 2) in
        let context_end := Nat.min (length all_lines) (i + 3) in
        let context :=
          join (py " ") (slice context_start context_end all_lines) in
        if Nat.ltb 50 (length context)
        then collect_context all_lines (S i) rest
               (relevant_context ++ [firstn 300 context])
        else collect_context all_lines (S i) rest relevant_context
      else collect_context all_lines (S i) rest relevant_context
  end.

(** The part of [check_for_disruptions] after [content = response.text.lower()]. *)
Definition check_content (h : host) (content : pystr) : UltraSimple.result :=
  let has_line_29 :=
    str_in (py "linje 29") content || str_in (py " 29 ") content
    || str_in (py "linje29") content in
  let has_nasbyparken := str_in (py "näsbypark") content in
  let has_disruption_words :=
    existsb (λ word, str_in word content) disruption_words in
  if (has_line_29 || has_nasbyparken) && has_disruption_words then
    let lines := split 10 content in
    let relevant_context := collect_context lines 0 lines [] in
    {| UltraSimple.has_disruption := Some true;
       UltraSimple.context :=
         Some (if truthy relevant_context then firstn 2 relevant_context
               else [py "Störning upptäckt"]);
       UltraSimple.checked := Some (now_isoformat h) |}
  else
    {| UltraSimple.has_disruption := Some false;
       UltraSimple.context := None;
       UltraSimple.checked := Some (now_isoformat h) |}.

(** [response]: the status code and the text of the page, or [None] when
    the request raised. *)
Definition check_for_disruptions (lower : pystr → pystr) (h : host)
    (response : option (Z * pystr)) : option UltraSimple.result :=
  match response with
  | None => None
  | Some (status_code, text) =>
      if negb (status_code =? 200)%Z then None
      else Some (check_content h (lower text))
  end.

(** [run], from the response on. *)
Definition run (lower : pystr → pystr) (h : host)
    (response : option (Z * pystr)) (file : state_file UltraSimple.state)
    : UltraSimple.cycle :=
  UltraSimple.run h (check_for_disruptions lower h response) file.

End Page.

(** ** Sample inputs *)

Module Sample.

(** The clock of the sample hosts is two hours ahead of UTC, as in
    Stockholm in summer; their [datetime.fromtimestamp] takes the
    timestamps from 0 to the last second of the year 9999 and raises on
    the others. *)

(** The year, the month and the day of the day [days] after 1 January
    1970. *)
Definition civil_of_days (days : Z) : Z * Z * Z :=
  let z := (days + 719468)%Z in
  let era := (z / 146097)%Z in
  let doe := (z - era * 146097)%Z in
  let yoe := ((doe - doe / 1460 + doe / 36524 - doe / 146096) / 365)%Z in
  let doy := (doe - (365 * yoe + yoe / 4 - yoe / 100))%Z in
  let mp := ((5 * doy + 2) / 153)%Z in
  let d := (doy - (153 * mp + 2) / 5 + 1)%Z in
  let m := (if mp <? 10 then mp + 3 else mp - 9)%Z in
  let y := (yoe + era * 400 + (if m <=? 2 then 1 else 0))%Z in
  (y, m, d).

Definition zero_padded (width : nat) (n : Z) : pystr :=
  let digits := str_of_nat (Z.to_nat n) in
  replicate (width - length digits) 48%N ++ digits.

Definition local_isoformat (t : Z) : option pystr :=
  let local := (t + 7200)%Z in
  if ((0 <=? t) && (local <=? 253402300799))%Z then
    let '(y, m, d) := civil_of_days (local / 86400) in
    let s := (local mod 86400)%Z in
    Some (zero_padded 4 y ++ py "-" ++ zero_padded 2 m ++ py "-"
          ++ zero_padded 2 d ++ py "T" ++ zero_padded 2 (s / 3600) ++ py ":"
          ++ zero_padded 2 (s mod 3600 / 60) ++ py ":"
          ++ zero_padded 2 (s mod 60))
  else None.

Definition morning : host :=
  {| fromtimestamp := local_isoformat;
     now_isoformat := py "2024-05-01T08:15:00.000000";
     now_strftime := py "2024-05-01 08:15:00";
     email_configured := true;
     write := Written |}.

(** The same host a quarter of an hour later. *)
Definition later : host :=
  {| fromtimestamp := local_isoformat;
     now_isoformat := py "2024-05-01T08:30:00.000000";
     now_strftime := py "2024-05-01 08:30:00";
     email_configured := true;
     write := Written |}.

(** The morning host without an e-mail account and with a state file it
    cannot open for writing. *)
Definition offline : host :=
  {| fromtimestamp := local_isoformat;
     now_isoformat := py "2024-05-01T08:15:00.000000";
     now_strftime := py "2024-05-01 08:15:00";
     email_configured := false;
     write := OpenFailed |}.

(** An alert for one route with a Swedish header. *)
Definition alert_on (route header : string) : GTFS.alert :=
  {| GTFS.informed_entity := [GTFS.EntitySelector (Some (py route))];
     GTFS.header_text := Some [GTFS.Translation (py "sv") (py header)];
     GTFS.description_text := None;
     GTFS.active_period := [];
     GTFS.alert_cause := None;
     GTFS.alert_effect := None |}.

Definition entity_A : GTFS.feed_entity :=
  GTFS.FeedEntity (py "A") (Some (alert_on "29" "Indragen hållplats")).
Definition entity_B : GTFS.feed_entity :=
  GTFS.FeedEntity (py "B") (Some (alert_on "SL:29" "Försening")).

(** An alert with a description of 800 characters and an open-ended
    period. *)
Definition long_text : pystr :=
  concat (replicate 40 (py "Inställda avgångar. ")).

Definition entity_long : GTFS.feed_entity :=
  GTFS.FeedEntity (py "L")
    (Some {| GTFS.informed_entity := [GTFS.EntitySelector (Some (py "29"))];
             GTFS.header_text :=
               Some [GTFS.Translation (py "sv") (py "Inställda avgångar")];
             GTFS.description_text :=
               Some [GTFS.Translation (py "sv") long_text];
             GTFS.active_period := [GTFS.TimeRange (Some 1714536000%Z) None];
             GTFS.alert_cause := None;
             GTFS.alert_effect := Some 1%Z |}).

Definition feed_long : GTFS.feed_message := GTFS.FeedMessage [entity_long].

Definition record_long : GTFS.disruption :=
  {| GTFS.alert_id := py "L";
     GTFS.header := py "Inställda avgångar";
     GTFS.description := long_text;
     GTFS.active_periods :=
       [GTFS.Period (py "2024-05-01T06:00:00") []];
     GTFS.cause := 0%Z;
     GTFS.effect := 1%Z |}.

Definition feed_A : GTFS.feed_message := GTFS.FeedMessage [entity_A].
Definition feed_AB : GTFS.feed_message := GTFS.FeedMessage [entity_A; entity_B].
(** A feed with nothing for the line. *)
Definition feed_other : GTFS.feed_message :=
  GTFS.FeedMessage [GTFS.FeedEntity (py "Z") (Some (alert_on "30" "Försening"));
                    GTFS.FeedEntity (py "T") None].
(** Alerts of the lines 129 and 290. *)
Definition feed_129 : GTFS.feed_message :=
  GTFS.FeedMessage [GTFS.FeedEntity (py "L129") (Some (alert_on "129" "Inställd"))].
Definition feed_290 : GTFS.feed_message :=
  GTFS.FeedMessage [GTFS.FeedEntity (py "L290") (Some (alert_on "290" "Inställd"))].

(** An alert of the line with a period whose end is the largest
    timestamp the feed can hold. *)
Definition entity_far : GTFS.feed_entity :=
  GTFS.FeedEntity (py "F")
    (Some {| GTFS.informed_entity := [GTFS.EntitySelector (Some (py "29"))];
             GTFS.header_text :=
               Some [GTFS.Translation (py "sv") (py "Indragen hållplats")];
             GTFS.description_text := None;
             GTFS.active_period :=
               [GTFS.TimeRange (Some 1714536000%Z)
                  (Some 18446744073709551615%Z)];
             GTFS.alert_cause := None;
             GTFS.alert_effect := None |}).

Definition feed_far : GTFS.feed_message := GTFS.FeedMessage [entity_far].

(** The records of the entities A and B. *)
Definition record_of (id header : string) : GTFS.disruption :=
  {| GTFS.alert_id := py id;
     GTFS.header := py header;
     GTFS.description := [];
     GTFS.active_periods := [];
     GTFS.cause := 0%Z;
     GTFS.effect := 0%Z |}.

Definition record_A : GTFS.disruption := record_of "A" "Indragen hållplats".
Definition record_B : GTFS.disruption := record_of "B" "Försening".

(** States with the known ids A; A and B; A and C. *)
Definition known_A : GTFS.state :=
  GTFS.state_of morning [record_A].
Definition known_AB : GTFS.state :=
  GTFS.state_of morning [record_A; record_B].
Definition known_AC : GTFS.state :=
  {| GTFS.timestamp := Some (py "2024-05-01T08:00:00.000000");
     GTFS.disruptions := None;
     GTFS.alert_ids := Some [py "A"; py "C"] |}.

(** Two disruptions of the count variant, and a state that counted two. *)
Definition simple_one : Simple.disruption :=
  {| Simple.header := Some (py "Buss 29 inställd");
     Simple.details := Some (py "Linje 29 går inte mellan Danderyds sjukhus och Näsbypark.");
     Simple.severity := Some 2%Z;
     Simple.created := Some (py "2024-05-01T07:55:00") |}.

Definition counted_two : Simple.state :=
  Simple.state_of morning [simple_one; simple_one].

(** The flag variant: the page no longer mentions the line, after it did. *)
Definition page_clear : UltraSimple.result :=
  {| UltraSimple.has_disruption := Some false;
     UltraSimple.context := None;
     UltraSimple.checked := Some (py "2024-05-01T08:15:00.000000") |}.

Definition page_mentions : UltraSimple.result :=
  {| UltraSimple.has_disruption := Some true;
     UltraSimple.context := Some [py "linje 29 inställd mellan danderyds sjukhus och näsbypark"];
     UltraSimple.checked := Some (py "2024-05-01T08:15:00.000000") |}.

Definition flagged : UltraSimple.state := UltraSimple.state_of morning true.

(** The morning host with a disk that fills up while the state is dumped. *)
Definition full_disk : host :=
  {| fromtimestamp := local_isoformat;
     now_isoformat := py "2024-05-01T08:15:00.000000";
     now_strftime := py "2024-05-01 08:15:00";
     email_configured := true;
     write := DumpFailed |}.

(** The known ids A and B as another cycle might have left them: in
    another order, one twice, no records stored. *)
Definition known_BAA : GTFS.state :=
  {| GTFS.timestamp := None;
     GTFS.disruptions := None;
     GTFS.alert_ids := Some [py "B"; py "A"; py "A"] |}.

(** An alert with an English and a Swedish header, the English one first. *)
Definition header_translations : list GTFS.translation :=
  [GTFS.Translation (py "en") (py "Cancelled departures");
   GTFS.Translation (py "sv") (py "Inställda avgångar");
   GTFS.Translation (py "fi") (py "Perutut vuorot")].

(** A page, in lower case, that mentions the line among traffic news. *)
Definition page_text : pystr :=
  py "trafikinfo" ++ nl
  ++ py "buss linje 29 inställd mellan danderyds sjukhus och näsbypark centrum idag"
  ++ nl ++ py "tunnelbanan går som vanligt".

(** An item of the API that lists the bus twice, with one event on the
    line and one on another. *)
Definition item_twice : Feed.item :=
  {| Feed.TrafficTypes :=
       Some [Feed.TrafficType (Some (py "bus"));
             Feed.TrafficType (Some (py "metro"));
             Feed.TrafficType (Some (py "bus"))];
     Feed.Events :=
       Some [Feed.Event (Some (py "Linje 29 inställd")) (Some (py "Vägarbete"))
               (Some 3%Z) (Some (py "2024-05-01T07:55:00"));
             Feed.Event (Some (py "Linje 4 försenad")) None None None] |}.

Definition api_data : Feed.data :=
  {| Feed.source := None; Feed.has_disruption := None;
     Feed.ResponseData := Some [item_twice]; Feed.other_keys := true |}.

End Sample.

(** * Properties *)

(** ** Strings *)

Lemma starts_with_spec (p s : pystr) :
  starts_with p s = true ↔ ∃ post, s = p ++ post.
Proof.
  revert s. induction p as [|a p IH]; intros s; simpl.
  - split; [intros _; by exists s | done].
  - destruct s as [|b s].
    + split; [done | intros [post Hpost]; discriminate].
    + destruct (N.eqb_spec a b) as [->|Hab].
      * rewrite IH. split; intros [post Hpost]; exists post.
        -- by rewrite Hpost.
        -- by injection Hpost.
      * split; [done | intros [post Hpost]; injection Hpost; congruence].
Qed.

(** [needle in hay] holds exactly when [hay] is some text, [needle], some
    text. *)
Lemma str_in_spec (needle hay : pystr) :
  str_in needle hay = true ↔ ∃ pre post, hay = pre ++ needle ++ post.
Proof.
  induction hay as [|b hay IH]; simpl.
  - destruct (starts_with needle []) eqn:Hs.
    + apply starts_with_spec in Hs as [post Hpost].
      split; [intros _; by exists [], post | done].
    + split; [done |]. intros (pre & post & Heq).
      destruct pre; [|discriminate]. simpl in Heq.
      assert (starts_with needle [] = true) as Hs'
        by (apply starts_with_spec; by exists post).
      congruence.
  - destruct (starts_with needle (b :: hay)) eqn:Hs.
    + apply starts_with_spec in Hs as [post Hpost].
      split; [intros _; by exists [], post | done].
    + rewrite IH. split.
      * intros (pre & post & ->). by exists (b :: pre), post.
      * intros (pre & post & Heq). destruct pre as [|c pre].
        -- simpl in Heq.
           assert (starts_with needle (b :: hay) = true) as Hs'
             by (apply starts_with_spec; by exists post).
           congruence.
        -- injection Heq as _ ->. by exists pre, post.
Qed.

Lemma truthy_true {A : Type} (l : list A) : truthy l = true ↔ l ≠ [].
Proof. by destruct l. Qed.

Lemma truncate_short (bound : nat) (desc : pystr) :
  length desc ≤ bound → truncate bound desc = desc.
Proof.
  intros Hle. unfold truncate.
  destruct (Nat.ltb_spec bound (length desc)); [lia | done].
Qed.

Lemma truncate_long (bound : nat) (desc : pystr) :
  bound < length desc →
  truncate bound desc = firstn bound desc ++ py "..."
  ∧ length (truncate bound desc) = bound + 3.
Proof.
  intros Hlt. unfold truncate, slice_to.
  destruct (Nat.ltb_spec bound (length desc)); [|lia].
  split; [done |].
  rewrite length_app, length_take. change (length (py "...")) with 3. lia.
Qed.

(** ** The identifier variant: analysis of a cycle *)

Section gtfs_analysis.
Import GTFS.

Lemma some_id_true (ids : gset pystr) : some_id ids = true ↔ ids ≠ ∅.
Proof. unfold some_id. by rewrite bool_decide_eq_true. Qed.

Lemma some_id_false (ids : gset pystr) : some_id ids = false ↔ ids = ∅.
Proof.
  unfold some_id. rewrite bool_decide_eq_false.
  split; [intros Hn; by destruct (decide (ids = ∅)) | by intros -> ?].
Qed.

Lemma current_ids_nonempty (ds : list disruption) :
  ds ≠ [] → current_ids_of ds ≠ ∅.
Proof.
  destruct ds as [|d ds]; [done |]. intros _. unfold current_ids_of. simpl.
  set_solver.
Qed.

Lemma current_ids_nil : current_ids_of [] = ∅.
Proof. done. Qed.

Lemma elem_of_current_ids (ds : list disruption) (d : disruption) :
  d ∈ ds → alert_id d ∈ current_ids_of ds.
Proof.
  intros Hd. unfold current_ids_of. apply elem_of_list_to_set.
  apply list_elem_of_fmap. by exists d.
Qed.

(** A cycle that fetched a feed, and whose filter returned, is the
    analysis of what the filter kept against the ids of the loaded state,
    and a save of what was kept. *)
Lemma run_fetched (h : host) (feed : feed_message) (file : state_file state)
    (current : list disruption) :
  filter_line_29 h (Some feed) = Some current →
  let result := analyse h (previous_ids_of (load_previous_state file)) current in
  run h (Some feed) file =
    {| found := Some result.1.1; relevant := result.1.2; sent := result.2;
       saved := Some (state_of h current);
       file_after := save_state h file current;
       raised := false |}.
Proof.
  intros Hfeed. cbv zeta. unfold run. rewrite Hfeed.
  by destruct (analyse _ _ _) as [[t records] dispatches].
Qed.

(** A cycle whose filter raised: the exception leaves [run], and the
    cycle has sent nothing and left the state file as it was. *)
Lemma run_raised (h : host) (feed : feed_message) (file : state_file state) :
  filter_line_29 h (Some feed) = None →
  run h (Some feed) file =
    {| found := None; relevant := []; sent := []; saved := None;
       file_after := file; raised := true |}.
Proof. intros Hfeed. unfold run. by rewrite Hfeed. Qed.

(** The file after a save, by what came of the write. *)
Lemma save_state_outcome (h : host) (file : state_file state)
    (ds : list disruption) :
  save_state h file ds
  = match write h with
    | Written => Stored (state_of h ds)
    | OpenFailed => file
    | DumpFailed => Unreadable
    end.
Proof. unfold save_state, write_file. by destruct (write h). Qed.

Lemma analyse_new (h : host) (previous_ids : gset pystr)
    (current : list disruption) :
  current ≠ [] → current_ids_of current ∖ previous_ids ≠ ∅ →
  analyse h previous_ids current =
    (New,
     filter (λ d, alert_id d ∈ current_ids_of current ∖ previous_ids) current,
     send_notification h
       (filter (λ d, alert_id d ∈ current_ids_of current ∖ previous_ids) current)
       (py "new")).
Proof.
  intros Hcur Hnew. unfold analyse.
  apply truthy_true in Hcur as ->. by apply some_id_true in Hnew as ->.
Qed.

Lemma analyse_updated (h : host) (previous_ids : gset pystr)
    (current : list disruption) :
  current ≠ [] → current_ids_of current ∖ previous_ids = ∅ →
  previous_ids ∖ current_ids_of current ≠ ∅ →
  analyse h previous_ids current =
    (Updated, current, send_notification h current (py "updated")).
Proof.
  intros Hcur Hnew Hres. unfold analyse.
  pose proof (current_ids_nonempty _ Hcur) as Hids.
  apply truthy_true in Hcur as ->. apply some_id_false in Hnew as ->.
  apply some_id_true in Hres as ->. by apply some_id_true in Hids as ->.
Qed.

Lemma analyse_ongoing (h : host) (previous_ids : gset pystr)
    (current : list disruption) :
  current ≠ [] → current_ids_of current ∖ previous_ids = ∅ →
  previous_ids ∖ current_ids_of current = ∅ →
  analyse h previous_ids current = (Ongoing, current, []).
Proof.
  intros Hcur Hnew Hres. unfold analyse.
  apply truthy_true in Hcur as ->. apply some_id_false in Hnew as ->.
  by apply some_id_false in Hres as ->.
Qed.

Lemma analyse_resolved (h : host) (previous_ids : gset pystr) :
  previous_ids ≠ ∅ →
  analyse h previous_ids [] =
    (Resolved, [], send_notification h [] (py "resolved")).
Proof. intros Hprev. unfold analyse. simpl. by apply some_id_true in Hprev as ->. Qed.

Lemma analyse_none (h : host) :
  analyse h ∅ [] = (NoChange, [], []).
Proof. done. Qed.

(** The five branches cover every pair of known ids and current records. *)
Lemma analyse_cases (h : host) (previous_ids : gset pystr)
    (current : list disruption) :
  let new_ids := current_ids_of current ∖ previous_ids in
  let resolved_ids := previous_ids ∖ current_ids_of current in
  (current ≠ [] ∧ new_ids ≠ ∅)
  ∨ (current ≠ [] ∧ new_ids = ∅ ∧ resolved_ids ≠ ∅)
  ∨ (current ≠ [] ∧ new_ids = ∅ ∧ resolved_ids = ∅)
  ∨ (current = [] ∧ previous_ids ≠ ∅)
  ∨ (current = [] ∧ previous_ids = ∅).
Proof.
  simpl. destruct current as [|d ds].
  - destruct (decide (previous_ids = ∅)); naive_solver.
  - destruct (decide (current_ids_of (d :: ds) ∖ previous_ids = ∅));
      [|naive_solver].
    destruct (decide (previous_ids ∖ current_ids_of (d :: ds) = ∅));
      naive_solver.
Qed.

End gtfs_analysis.

(** ** Classification in the identifier variant *)

Section gtfs_claims.
Import GTFS.

Lemma elem_of_new_disruptions (new_ids : gset pystr)
    (current : list disruption) (d : disruption) :
  d ∈ filter (λ d, alert_id d ∈ new_ids) current
  ↔ d ∈ current ∧ alert_id d ∈ new_ids.
Proof. rewrite list_elem_of_filter. tauto. Qed.

(** C1. Whatever was persisted, when the current records are not empty and
    some current id is not among the known ids, the cycle is classified
    New; its records are exactly the current records whose id is new, in
    their order, and these are what is sent as "new".  Nothing is asked of
    the resolved ids: the New branch is taken also when some id was
    resolved in the same cycle. *)
Theorem new_beats_updated (h : host) (previous : state)
    (current : list disruption) :
  let previous_ids := previous_ids_of previous in
  let new_ids := current_ids_of current ∖ previous_ids in
  let new_disruptions := filter (λ d, alert_id d ∈ new_ids) current in
  current ≠ [] → new_ids ≠ ∅ →
  analyse h previous_ids current
    = (New, new_disruptions, send_notification h new_disruptions (py "new"))
  ∧ (∀ d, d ∈ new_disruptions ↔ d ∈ current ∧ alert_id d ∈ new_ids)
  ∧ (∀ feed file,
       filter_line_29 h (Some feed) = Some current →
       load_previous_state file = previous →
       found (run h (Some feed) file) = Some New
       ∧ relevant (run h (Some feed) file) = new_disruptions).
Proof.
  intros previous_ids new_ids new_disruptions Hcur Hnew.
  pose proof (analyse_new h previous_ids current Hcur Hnew) as Ha.
  split; [exact Ha |]. split; [intros d; apply elem_of_new_disruptions |].
  intros feed file Hfeed Hfile. rewrite (run_fetched _ _ _ _ Hfeed).
  cbv zeta. rewrite Hfile. fold previous_ids. by rewrite Ha.
Qed.

(** Known ids A and C, current records A and B: B is new and C is resolved
    in the same cycle, and the cycle is New with the record B alone. *)
Lemma new_beats_updated_witness :
  previous_ids_of Sample.known_AC
    ∖ current_ids_of [Sample.record_A; Sample.record_B] ≠ ∅
  ∧ found (run Sample.morning (Some Sample.feed_AB) (Stored Sample.known_AC))
    = Some New
  ∧ relevant (run Sample.morning (Some Sample.feed_AB) (Stored Sample.known_AC))
    = [Sample.record_B].
Proof.
  split; [apply some_id_true; vm_compute; reflexivity |].
  destruct (new_beats_updated Sample.morning Sample.known_AC
              [Sample.record_A; Sample.record_B]) as (_ & _ & Hrun).
  - discriminate.
  - apply some_id_true. by vm_compute.
  - destruct (Hrun Sample.feed_AB (Stored Sample.known_AC)) as [Hfound Hrel].
    + by vm_compute.
    + reflexivity.
    + split; [exact Hfound |]. rewrite Hrel. by vm_compute.
Defined.

(** C5. When the current records are not empty, no current id is new and
    some known id is gone, the cycle is classified Updated and its records
    are all the current records. *)
Theorem updated_when_some_resolved (h : host) (previous : state)
    (current : list disruption) :
  let previous_ids := previous_ids_of previous in
  let new_ids := current_ids_of current ∖ previous_ids in
  let resolved_ids := previous_ids ∖ current_ids_of current in
  current ≠ [] → new_ids = ∅ → resolved_ids ≠ ∅ →
  analyse h previous_ids current
    = (Updated, current, send_notification h current (py "updated"))
  ∧ (∀ feed file,
       filter_line_29 h (Some feed) = Some current →
       load_previous_state file = previous →
       found (run h (Some feed) file) = Some Updated
       ∧ relevant (run h (Some feed) file) = current).
Proof.
  intros previous_ids new_ids resolved_ids Hcur Hnew Hres.
  pose proof (analyse_updated h previous_ids current Hcur Hnew Hres) as Ha.
  split; [exact Ha |].
  intros feed file Hfeed Hfile. rewrite (run_fetched _ _ _ _ Hfeed).
  cbv zeta. rewrite Hfile. fold previous_ids. by rewrite Ha.
Qed.

(** Known ids A and B, current record A: Updated, with the record A. *)
Lemma updated_when_some_resolved_witness :
  found (run Sample.morning (Some Sample.feed_A) (Stored Sample.known_AB))
    = Some Updated
  ∧ relevant (run Sample.morning (Some Sample.feed_A) (Stored Sample.known_AB))
    = [Sample.record_A].
Proof.
  destruct (updated_when_some_resolved Sample.morning Sample.known_AB
              [Sample.record_A]) as (_ & Hrun).
  - discriminate.
  - apply some_id_false. by vm_compute.
  - apply some_id_true. by vm_compute.
  - apply (Hrun Sample.feed_A (Stored Sample.known_AB));
      [by vm_compute | reflexivity].
Defined.

Lemma resolved_channels (h : host) :
  channels (send_notification h [] (py "resolved")) = [Desktop].
Proof.
  unfold send_notification.
  replace (bool_decide (py "resolved" ∈ [py "new"; py "updated"])) with false
    by (by vm_compute).
  reflexivity.
Qed.

(** C6, as the script has it.  When some id was known and the current
    records are empty, the cycle is classified Resolved with no records;
    the resolved notice is sent, on the desktop channel, which is where
    this script sends its resolved notices; the state built for saving has
    no known id.  What the state file holds afterwards is decided by the
    write: that state when the write goes through; nothing readable when
    the dump fails; the file as it was when it cannot be opened.  So the
    ids the next cycle knows are none after a write and after a failed
    dump, and the ids known before after a failed open. *)
Theorem resolved_when_all_gone (h : host) (previous : state) :
  previous_ids_of previous ≠ ∅ →
  analyse h (previous_ids_of previous) []
    = (Resolved, [], send_notification h [] (py "resolved"))
  ∧ channels (send_notification h [] (py "resolved")) = [Desktop]
  ∧ (∀ feed file,
       filter_line_29 h (Some feed) = Some [] →
       load_previous_state file = previous →
       let c := run h (Some feed) file in
       found c = Some Resolved
       ∧ relevant c = []
       ∧ sent c = send_notification h [] (py "resolved")
       ∧ (∃ s, saved c = Some s ∧ alert_ids s = Some []
               ∧ previous_ids_of s = ∅
               ∧ file_after c = match write h with
                                | Written => Stored s
                                | OpenFailed => file
                                | DumpFailed => Unreadable
                                end)
       ∧ previous_ids_of (load_previous_state (file_after c))
         = match write h with
           | OpenFailed => previous_ids_of previous
           | Written | DumpFailed => ∅
           end).
Proof.
  intros Hprev.
  pose proof (analyse_resolved h (previous_ids_of previous) Hprev) as Ha.
  split; [exact Ha |]. split; [apply resolved_channels |].
  intros feed file Hfeed Hfile c. subst c.
  rewrite (run_fetched _ _ _ _ Hfeed). cbv zeta. rewrite Hfile, Ha.
  cbn [found relevant sent saved file_after fst snd].
  split; [done |]. split; [done |]. split; [done |].
  rewrite save_state_outcome. split.
  - exists (state_of h []). by repeat split.
  - destruct (write h); [done | by rewrite Hfile | done].
Qed.

(** Known ids A and B, a feed with nothing for the line, on a host that
    writes its state file. *)
Lemma resolved_when_all_gone_witness :
  let c := run Sample.morning (Some Sample.feed_other) (Stored Sample.known_AB) in
  found c = Some Resolved
  ∧ relevant c = []
  ∧ channels (sent c) = [Desktop]
  ∧ previous_ids_of (load_previous_state (file_after c)) = ∅.
Proof.
  destruct (resolved_when_all_gone Sample.morning Sample.known_AB)
    as (_ & Hch & Hrun).
  - apply some_id_true. by vm_compute.
  - destruct (Hrun Sample.feed_other (Stored Sample.known_AB))
      as (Hfound & Hrel & Hsent & _ & Hids).
    + by vm_compute.
    + reflexivity.
    + cbv zeta in *. split; [exact Hfound |]. split; [exact Hrel |].
      split; [rewrite Hsent; exact Hch | exact Hids].
Defined.

(** The same cycle on a host that cannot open its state file for writing:
    it is Resolved, the notice goes to the desktop, and the file holds
    the ids A and B as before. *)
Lemma resolved_ids_stay_on_failed_open :
  let c := run Sample.offline (Some Sample.feed_other) (Stored Sample.known_AB) in
  alert_ids Sample.known_AB = Some [py "A"; py "B"]
  ∧ filter_line_29 Sample.offline (Some Sample.feed_other) = Some []
  ∧ write Sample.offline = OpenFailed
  ∧ found c = Some Resolved
  ∧ relevant c = []
  ∧ channels (sent c) = [Desktop]
  ∧ file_after c = Stored Sample.known_AB
  ∧ alert_ids (load_previous_state (file_after c)) = Some [py "A"; py "B"]
  ∧ previous_ids_of (load_previous_state (file_after c)) ≠ ∅.
Proof.
  cbv zeta. split_and!; by vm_compute.
Qed.

Lemma ids_match_state_of (h : host) (ds : list disruption) :
  ids_match (state_of h ds).
Proof. reflexivity. Qed.

Lemma ids_match_empty : ids_match empty_state.
Proof. reflexivity. Qed.

(** C7, as the script has it.  A cycle that comes to a classification,
    whichever it is, builds for saving the state of the current records:
    the time of saving, the current records, and their ids as known ids,
    which are then the ids of the records it stores.  Whether the file
    holds that state afterwards is decided by the write: it does when the
    write goes through; when the file cannot be opened it holds what it
    held, and when the dump fails nothing readable.  A cycle that comes to
    no classification saves nothing and leaves the file.  Over any cycle,
    known ids in the file that match the records stored with them still
    match afterwards. *)
Theorem state_saved_every_cycle (h : host) (fetched : option feed_message)
    (file : state_file state) :
  let c := run h fetched file in
  (∀ t, found c = Some t →
     ∃ feed current s,
       fetched = Some feed
       ∧ filter_line_29 h (Some feed) = Some current
       ∧ s = {| timestamp := Some (now_isoformat h);
                disruptions := Some current;
                alert_ids := Some (List.map alert_id current) |}
       ∧ saved c = Some s
       ∧ previous_ids_of s = current_ids_of current
       ∧ file_after c = match write h with
                        | Written => Stored s
                        | OpenFailed => file
                        | DumpFailed => Unreadable
                        end)
  ∧ (found c = None → saved c = None ∧ file_after c = file)
  ∧ (file_ids_match file → file_ids_match (file_after c)).
Proof.
  intros c. subst c. destruct fetched as [feed|];
    [destruct (filter_line_29 h (Some feed)) as [current|] eqn:Hfeed |].
  - rewrite (run_fetched _ _ _ _ Hfeed). cbv zeta.
    cbn [found saved file_after]. rewrite save_state_outcome.
    split; [|split].
    + intros t _. exists feed, current, (state_of h current).
      by repeat split.
    + discriminate.
    + intros Hfile.
      destruct (write h); [apply ids_match_state_of | exact Hfile |].
      apply ids_match_empty.
  - rewrite (run_raised _ _ _ Hfeed). cbn [found saved file_after].
    split; [discriminate | done].
  - cbn [run found saved file_after]. split; [discriminate | done].
Qed.

(** Each of the five classifications ends, on a host that writes its
    state file, with the state of the current records in the file. *)
Lemma state_saved_every_cycle_witness :
  List.map (λ '(feed, file), found (run Sample.morning (Some feed) file))
    [(Sample.feed_AB, Stored Sample.known_A);
     (Sample.feed_A, Stored Sample.known_AB);
     (Sample.feed_A, Stored Sample.known_A);
     (Sample.feed_other, Stored Sample.known_A);
     (Sample.feed_other, Missing)]
  = [Some New; Some Updated; Some Ongoing; Some Resolved; Some NoChange]
  ∧ Forall (λ '(feed, file),
      Stored <$> saved (run Sample.morning (Some feed) file)
      = Some (file_after (run Sample.morning (Some feed) file)))
    [(Sample.feed_AB, Stored Sample.known_A);
     (Sample.feed_A, Stored Sample.known_AB);
     (Sample.feed_A, Stored Sample.known_A);
     (Sample.feed_other, Stored Sample.known_A);
     (Sample.feed_other, Missing)]
  ∧ file_ids_match
      (file_after (run Sample.morning (Some Sample.feed_A)
                     (Stored Sample.known_AB))).
Proof.
  split; [by vm_compute |]. split.
  - repeat apply Forall_cons_2; try apply Forall_nil_2.
    all: match goal with
         | |- _ <$> saved (run ?h (Some ?feed) ?file) = _ =>
             destruct (state_saved_every_cycle h (Some feed) file) as [Hs _];
             destruct (Hs _ ltac:(by vm_compute))
               as (feed' & current & s & _ & _ & _ & -> & _ & ->)
         end; reflexivity.
  - apply (state_saved_every_cycle Sample.morning (Some Sample.feed_A)
             (Stored Sample.known_AB)).
    reflexivity.
Defined.

(** Known id A, current records A and B, on a host that cannot open its
    state file for writing: the cycle is New and builds the state of A and
    B, and the file holds the state of A alone as before, so that the next
    cycle finds B new again.  On a host whose dump fails the file holds no
    state at all. *)
Lemma unwritten_state_is_not_persisted :
  let c := run Sample.offline (Some Sample.feed_AB) (Stored Sample.known_A) in
  let next := run Sample.offline (Some Sample.feed_AB) (file_after c) in
  let c' := run Sample.full_disk (Some Sample.feed_AB) (Stored Sample.known_A) in
  write Sample.offline = OpenFailed
  ∧ found c = Some New
  ∧ (alert_ids <$> saved c) = Some (Some [py "A"; py "B"])
  ∧ file_after c = Stored Sample.known_A
  ∧ alert_ids (load_previous_state (file_after c)) = Some [py "A"]
  ∧ found next = Some New
  ∧ relevant next = [Sample.record_B]
  ∧ write Sample.full_disk = DumpFailed
  ∧ found c' = Some New
  ∧ file_after c' = Unreadable
  ∧ alert_ids (load_previous_state (file_after c')) = None.
Proof. cbv zeta. split_and!; by vm_compute. Qed.

End gtfs_claims.

(** ** Classification in the count variant *)

(** Without identifiers a cycle is New only when nothing was counted
    before; a count that changes from one non-zero value to another is
    Updated, whether it grew or shrank. *)
Lemma simple_new_iff (h : host) (previous_count : Z)
    (current : list Simple.disruption) :
  (Simple.analyse h previous_count current).1.1 = New
  ↔ current ≠ [] ∧ previous_count = 0%Z.
Proof.
  unfold Simple.analyse. destruct current as [|d ds].
  - simpl. split; [|by intros [? _]]. by destruct (0 <? previous_count)%Z.
  - change (0 <? Z.of_nat (length (d :: ds)))%Z with true. cbv iota.
    destruct (Z.eqb_spec previous_count 0) as [-> | Hne]; [done |].
    split; [|by intros [_ ?]]. by destruct (negb _).
Qed.

Lemma simple_updated_iff (h : host) (previous_count : Z)
    (current : list Simple.disruption) :
  (Simple.analyse h previous_count current).1.1 = Updated
  ↔ current ≠ [] ∧ previous_count ≠ 0%Z
    ∧ Z.of_nat (length current) ≠ previous_count.
Proof.
  unfold Simple.analyse. destruct current as [|d ds].
  - simpl. split; [|by intros [? _]]. by destruct (0 <? previous_count)%Z.
  - change (0 <? Z.of_nat (length (d :: ds)))%Z with true. cbv iota.
    destruct (Z.eqb_spec previous_count 0) as [-> | Hne];
      [split; [done | by intros (_ & ? & _)] |].
    destruct (Z.eqb_spec (Z.of_nat (length (d :: ds))) previous_count)
      as [Heq | Hneq]; simpl.
    + split; [done | by intros (_ & _ & ?)].
    + done.
Qed.

(** ** Channels *)

Lemma configured_desktop_email (h : host) :
  configured_channels h [Desktop; Email]
  = Desktop :: (if email_configured h then [Email] else []).
Proof. unfold configured_channels. by destruct (email_configured h). Qed.

Lemma configured_email (h : host) :
  configured_channels h [Email] = if email_configured h then [Email] else [].
Proof. unfold configured_channels. by destruct (email_configured h). Qed.

Lemma gtfs_channels (h : host) (ds : list GTFS.disruption)
    (notification_type : pystr) :
  channels (GTFS.send_notification h ds notification_type)
  = Desktop :: (if bool_decide (notification_type ∈ [py "new"; py "updated"])
                then (if email_configured h then [Email] else [])
                else []).
Proof.
  unfold GTFS.send_notification, send_email_notification. simpl.
  case_bool_decide; [|done]. by destruct (email_configured h).
Qed.

Lemma simple_channels (h : host) (ds : list Simple.disruption)
    (notification_type : pystr) :
  channels (Simple.send_notification h ds notification_type)
  = if bool_decide (notification_type ∈ [py "new"; py "resolved"])
    then (if email_configured h then [Email] else [])
    else [].
Proof.
  unfold Simple.send_notification, send_email_notification.
  case_bool_decide; [|done]. by destruct (email_configured h).
Qed.

(** Which notification types the two [send_notification] e-mail. *)
Lemma gtfs_emailed :
  bool_decide (py "new" ∈ [py "new"; py "updated"]) = true
  ∧ bool_decide (py "updated" ∈ [py "new"; py "updated"]) = true
  ∧ bool_decide (py "resolved" ∈ [py "new"; py "updated"]) = false.
Proof. by vm_compute. Qed.

Lemma simple_emailed :
  bool_decide (py "new" ∈ [py "new"; py "resolved"]) = true
  ∧ bool_decide (py "updated" ∈ [py "new"; py "resolved"]) = false
  ∧ bool_decide (py "resolved" ∈ [py "new"; py "resolved"]) = true.
Proof. by vm_compute. Qed.

(** C2, as the scripts have it.  In the identifier variant New and Updated
    go to every configured channel, the desktop and the e-mail, Resolved
    goes to the desktop alone, Ongoing and no change go nowhere.  In the
    count variant, which has the e-mail as its one channel, New and
    Resolved go to it when it is configured, and Updated, Ongoing and no
    change go nowhere. *)
Theorem dispatch_tables (h : host) :
  (∀ (previous_ids : gset pystr) (current : list GTFS.disruption),
     let '(t, _, sent) := GTFS.analyse h previous_ids current in
     channels sent =
       match t with
       | New | Updated => configured_channels h [Desktop; Email]
       | Resolved => [Desktop]
       | Ongoing | NoChange => []
       end)
  ∧ (∀ (previous_count : Z) (current : list Simple.disruption),
       let '(t, _, sent) := Simple.analyse h previous_count current in
       channels sent =
         match t with
         | New | Resolved => configured_channels h [Email]
         | Updated | Ongoing | NoChange => []
         end).
Proof.
  destruct gtfs_emailed as (Hgn & Hgu & Hgr).
  destruct simple_emailed as (Hsn & Hsu & Hsr).
  split.
  - intros previous_ids current. unfold GTFS.analyse.
    rewrite configured_desktop_email.
    destruct (truthy current);
      [destruct (GTFS.some_id _); [|destruct (_ && _)]
      |destruct (GTFS.some_id _)];
      rewrite ?gtfs_channels, ?Hgn, ?Hgu, ?Hgr; reflexivity.
  - intros previous_count current. unfold Simple.analyse.
    rewrite configured_email.
    destruct (0 <? _)%Z;
      [destruct (_ =? _)%Z; [|destruct (negb _)]
      |destruct (0 <? _)%Z];
      rewrite ?simple_channels, ?Hsn, ?Hsu, ?Hsr; reflexivity.
Qed.

(** The count variant, two disruptions counted, one now, the e-mail
    configured: the cycle is Updated and nothing is dispatched. *)
Lemma simple_updated_not_dispatched :
  let c := Simple.run Sample.morning (Some [Sample.simple_one])
             (Stored Sample.counted_two) in
  Simple.found c = Some Updated
  ∧ configured_channels Sample.morning [Email] = [Email]
  ∧ channels (Simple.sent c) = []
  ∧ channels (Simple.sent c) ≠ configured_channels Sample.morning [Email].
Proof. by vm_compute. Qed.

(** ** Two cycles over the same states *)

(** The branch and its records do not read the host. *)
Lemma gtfs_analysis_host_free (h1 h2 : host) (previous_ids : gset pystr)
    (current : list GTFS.disruption) :
  (GTFS.analyse h1 previous_ids current).1
  = (GTFS.analyse h2 previous_ids current).1.
Proof. unfold GTFS.analyse. by repeat case_match. Qed.

Lemma simple_analysis_host_free (h1 h2 : host) (previous_count : Z)
    (current : list Simple.disruption) :
  (Simple.analyse h1 previous_count current).1
  = (Simple.analyse h2 previous_count current).1.
Proof. unfold Simple.analyse. by repeat case_match. Qed.

(** C3, as the scripts have it.  Two cycles over the same known ids and
    the same current records, on whatever hosts, find the same
    classification with the same records, and build states with the same
    stored records and the same known ids (the same count, in the count
    variant).  The timestamp of each state is the clock of its cycle: the
    two states are the same exactly when the two clocks read the same. *)
Theorem same_pair_same_outcome (h1 h2 : host) :
  (∀ (previous_ids : gset pystr) (current : list GTFS.disruption),
     (GTFS.analyse h1 previous_ids current).1
       = (GTFS.analyse h2 previous_ids current).1
     ∧ GTFS.disruptions (GTFS.state_of h1 current)
       = GTFS.disruptions (GTFS.state_of h2 current)
     ∧ GTFS.alert_ids (GTFS.state_of h1 current)
       = GTFS.alert_ids (GTFS.state_of h2 current)
     ∧ GTFS.timestamp (GTFS.state_of h1 current) = Some (now_isoformat h1)
     ∧ GTFS.timestamp (GTFS.state_of h2 current) = Some (now_isoformat h2)
     ∧ (GTFS.state_of h1 current = GTFS.state_of h2 current
        ↔ now_isoformat h1 = now_isoformat h2))
  ∧ (∀ (previous_count : Z) (current : list Simple.disruption),
       (Simple.analyse h1 previous_count current).1
         = (Simple.analyse h2 previous_count current).1
       ∧ Simple.disruptions (Simple.state_of h1 current)
         = Simple.disruptions (Simple.state_of h2 current)
       ∧ Simple.count (Simple.state_of h1 current)
         = Simple.count (Simple.state_of h2 current)
       ∧ Simple.timestamp (Simple.state_of h1 current)
         = Some (now_isoformat h1)
       ∧ Simple.timestamp (Simple.state_of h2 current)
         = Some (now_isoformat h2)
       ∧ (Simple.state_of h1 current = Simple.state_of h2 current
          ↔ now_isoformat h1 = now_isoformat h2)).
Proof.
  split.
  - intros previous_ids current.
    split; [apply gtfs_analysis_host_free |]. do 4 (split; [reflexivity |]).
    unfold GTFS.state_of. split; [intros Heq; by injection Heq | by intros ->].
  - intros previous_count current.
    split; [apply simple_analysis_host_free |]. do 4 (split; [reflexivity |]).
    unfold Simple.state_of. split; [intros Heq; by injection Heq | by intros ->].
Qed.

(** Two hosts that differ in their e-mail account and in their disk, at
    the same time of day: the same state is built. *)
Lemma same_pair_same_outcome_witness :
  GTFS.state_of Sample.morning [Sample.record_A]
  = GTFS.state_of Sample.offline [Sample.record_A].
Proof.
  destruct (same_pair_same_outcome Sample.morning Sample.offline) as [Hg _].
  destruct (Hg ∅ [Sample.record_A]) as (_ & _ & _ & _ & _ & Hiff).
  apply Hiff. reflexivity.
Defined.

(** Known id A, current record A, at a quarter past eight and at half past
    eight: both cycles are Ongoing, and they save different states. *)
Lemma saved_state_reads_the_clock :
  let c1 := GTFS.run Sample.morning (Some Sample.feed_A)
              (Stored Sample.known_A) in
  let c2 := GTFS.run Sample.later (Some Sample.feed_A)
              (Stored Sample.known_A) in
  GTFS.filter_line_29 Sample.morning (Some Sample.feed_A)
    = GTFS.filter_line_29 Sample.later (Some Sample.feed_A)
  ∧ GTFS.found c1 = Some Ongoing
  ∧ GTFS.found c2 = Some Ongoing
  ∧ GTFS.saved c1 ≠ GTFS.saved c2
  ∧ GTFS.file_after c1 ≠ GTFS.file_after c2.
Proof.
  simpl. split; [reflexivity |]. split; [by vm_compute |].
  split; [by vm_compute |]. split; intros Heq; by vm_compute in Heq.
Qed.

(** ** The resolved notice *)

Lemma gtfs_resolved_notice (h : host) :
  GTFS.send_notification h [] (py "resolved")
  = [Dispatch Desktop resolved_title resolved_message].
Proof.
  unfold GTFS.send_notification. destruct gtfs_emailed as (_ & _ & ->).
  by vm_compute.
Qed.

Lemma simple_resolved_notice (h : host) :
  Simple.send_notification h [] (py "resolved")
  = if email_configured h
    then [Dispatch Email resolved_title resolved_message] else [].
Proof.
  unfold Simple.send_notification, send_email_notification.
  destruct simple_emailed as (_ & _ & ->).
  destruct (email_configured h); by vm_compute.
Qed.

Lemma flag_resolved_body (h : host) :
  UltraSimple.resolved_body h = flag_resolved_text ++ now_strftime h.
Proof.
  unfold UltraSimple.resolved_body. generalize (now_strftime h). intros clock.
  rewrite !app_assoc. f_equal; by vm_compute.
Qed.

(** C4, as the scripts have it.  In the identifier variant and in the
    count variant a cycle classified Resolved has no records and composes
    one title and one message, the same on every host and after every
    previous state.  In the flag variant the subject is fixed as well, and
    the body is a fixed text ended by the time of the cycle: it reads the
    clock, and nothing of what the page check returned. *)
Theorem resolved_notice_fixed (h : host) :
  (∀ (previous_ids : gset pystr) (current records : list GTFS.disruption)
     (sent : list dispatch),
     GTFS.analyse h previous_ids current = (Resolved, records, sent) →
     current = [] ∧ records = []
     ∧ sent = [Dispatch Desktop resolved_title resolved_message])
  ∧ (∀ (previous_count : Z) (current records : list Simple.disruption)
       (sent : list dispatch),
       Simple.analyse h previous_count current = (Resolved, records, sent) →
       current = [] ∧ records = []
       ∧ Forall (λ d, title_of d = resolved_title
                      ∧ message_of d = resolved_message) sent)
  ∧ (∀ (had_disruption_before : bool) (r : UltraSimple.result)
       (sent : list dispatch),
       UltraSimple.analyse h had_disruption_before r = (Resolved, sent) →
       Forall (λ d, title_of d = flag_resolved_subject
                    ∧ message_of d = flag_resolved_text ++ now_strftime h)
         sent).
Proof.
  split; [|split].
  - intros previous_ids current records sent. unfold GTFS.analyse.
    destruct current as [|d ds]; simpl.
    + rewrite gtfs_resolved_notice. case_match; intros Heq; by simplify_eq.
    + repeat case_match; intros Heq; discriminate.
  - intros previous_count current records sent. unfold Simple.analyse.
    destruct current as [|d ds].
    + simpl. rewrite simple_resolved_notice.
      repeat case_match; intros Heq; simplify_eq; repeat split;
        repeat constructor.
    + change (0 <? Z.of_nat (length (d :: ds)))%Z with true. cbv iota.
      repeat case_match; intros Heq; discriminate.
  - intros before r sent. unfold UltraSimple.analyse, send_email_notification.
    rewrite flag_resolved_body.
    repeat case_match; intros Heq; simplify_eq; repeat constructor.
Qed.

(** Known id A, a feed with nothing for the line: the one dispatch carries
    the fixed title and message. *)
Lemma resolved_notice_fixed_witness :
  GTFS.sent (GTFS.run Sample.morning (Some Sample.feed_other)
               (Stored Sample.known_A))
  = [Dispatch Desktop resolved_title resolved_message].
Proof.
  destruct (resolved_notice_fixed Sample.morning) as (Hg & _ & _).
  destruct (Hg (GTFS.previous_ids_of Sample.known_A) [] []
              (GTFS.sent (GTFS.run Sample.morning (Some Sample.feed_other)
                            (Stored Sample.known_A))))
    as (_ & _ & Hsent).
  - by vm_compute.
  - exact Hsent.
Defined.

(** The flag variant, the flag set, a page that no longer mentions the
    line, at a quarter past eight and at half past eight: both cycles are
    Resolved, with different bodies. *)
Lemma flag_resolved_body_reads_the_clock :
  let c1 := UltraSimple.run Sample.morning (Some Sample.page_clear)
              (Stored Sample.flagged) in
  let c2 := UltraSimple.run Sample.later (Some Sample.page_clear)
              (Stored Sample.flagged) in
  UltraSimple.found c1 = Some Resolved
  ∧ UltraSimple.found c2 = Some Resolved
  ∧ List.map title_of (UltraSimple.sent c1)
    = List.map title_of (UltraSimple.sent c2)
  ∧ List.map message_of (UltraSimple.sent c1)
    ≠ List.map message_of (UltraSimple.sent c2).
Proof.
  simpl. split; [by vm_compute |]. split; [by vm_compute |].
  split; [by vm_compute |]. intros Heq. by vm_compute in Heq.
Qed.

(** ** A state file that cannot be read *)

Lemma filter_all {A : Type} (P : A → Prop) `{!∀ x, Decision (P x)}
    (l : list A) :
  (∀ x, x ∈ l → P x) → filter P l = l.
Proof.
  induction l as [|x l IH]; intros Hall; [done |].
  rewrite filter_cons_True by (apply Hall; left).
  f_equal. apply IH. intros y Hy. apply Hall. by right.
Qed.

(** C8. When there is no state file, or it cannot be read, each script
    loads its empty state and goes on: no id is known, the count is taken
    as zero, the flag as unset.  A cycle that then finds current records
    (in the identifier variant: whose filter returns some) is classified
    New, and its records are all the current records. *)
Theorem unreadable_state_is_no_state (h : host) :
  (∀ file : state_file GTFS.state, read_fails file →
     GTFS.load_previous_state file = GTFS.empty_state
     ∧ GTFS.previous_ids_of (GTFS.load_previous_state file) = ∅
     ∧ (∀ feed current,
          GTFS.filter_line_29 h (Some feed) = Some current → current ≠ [] →
          GTFS.found (GTFS.run h (Some feed) file) = Some New
          ∧ GTFS.relevant (GTFS.run h (Some feed) file) = current))
  ∧ (∀ file : state_file Simple.state, read_fails file →
       Simple.load_previous_state file = Simple.empty_state
       ∧ (∀ current, current ≠ [] →
            Simple.found (Simple.run h (Some current) file) = Some New
            ∧ Simple.relevant (Simple.run h (Some current) file) = current))
  ∧ (∀ file : state_file UltraSimple.state, read_fails file →
       UltraSimple.load_previous_state file = UltraSimple.default_state
       ∧ (∀ r, UltraSimple.has_disruption r = Some true →
            UltraSimple.found (UltraSimple.run h (Some r) file) = Some New)).
Proof.
  split; [|split].
  - intros file Hfile.
    assert (GTFS.load_previous_state file = GTFS.empty_state) as Hload
      by (by destruct Hfile as [-> | ->]).
    split; [exact Hload |]. rewrite Hload. split; [reflexivity |].
    intros feed current Hfeed Hcur. rewrite (run_fetched _ _ _ _ Hfeed).
    cbv zeta. rewrite Hload.
    change (GTFS.previous_ids_of GTFS.empty_state) with (∅ : gset pystr).
    assert (GTFS.current_ids_of current ∖ ∅ ≠ ∅) as Hnew.
    { rewrite difference_empty_L. by apply current_ids_nonempty. }
    rewrite (analyse_new h ∅ current Hcur Hnew). simpl.
    split; [reflexivity |]. apply filter_all.
    intros d Hd. rewrite difference_empty_L. by apply elem_of_current_ids.
  - intros file Hfile.
    assert (Simple.load_previous_state file = Simple.empty_state) as Hload
      by (by destruct Hfile as [-> | ->]).
    split; [exact Hload |]. intros current Hcur.
    unfold Simple.run. rewrite Hload. simpl. unfold Simple.analyse.
    destruct current as [|d ds]; [done |]. by simpl.
  - intros file Hfile.
    assert (UltraSimple.load_previous_state file = UltraSimple.default_state)
      as Hload by (by destruct Hfile as [-> | ->]).
    split; [exact Hload |]. intros r Hr.
    unfold UltraSimple.run. rewrite Hload. simpl.
    unfold UltraSimple.analyse. by rewrite Hr.
Qed.

(** No state file, and a state file that does not parse: the two current
    records are both new. *)
Lemma unreadable_state_is_no_state_witness :
  GTFS.load_previous_state (@Unreadable GTFS.state) = GTFS.empty_state
  ∧ GTFS.found (GTFS.run Sample.morning (Some Sample.feed_AB) Missing)
    = Some New
  ∧ GTFS.relevant (GTFS.run Sample.morning (Some Sample.feed_AB) Unreadable)
    = [Sample.record_A; Sample.record_B].
Proof.
  destruct (unreadable_state_is_no_state Sample.morning) as (Hg & _ & _).
  destruct (Hg Missing) as (_ & _ & Hmissing); [by left |].
  destruct (Hg Unreadable) as (Hload & _ & Hunreadable); [by right |].
  assert (GTFS.filter_line_29 Sample.morning (Some Sample.feed_AB)
          = Some [Sample.record_A; Sample.record_B]) as Hfeed
    by (by vm_compute).
  split; [exact Hload |]. split.
  - by apply (Hmissing Sample.feed_AB _ Hfeed).
  - by destruct (Hunreadable Sample.feed_AB _ Hfeed) as [_ ->].
Defined.

(** ** The body of a notification *)

Lemma occurs_in_middle (pre block post : pystr) :
  occurs_in block (pre ++ block ++ post).
Proof. by exists pre, post. Qed.

Lemma occurs_in_app (block pre body post : pystr) :
  occurs_in block body → occurs_in block (pre ++ body ++ post).
Proof.
  intros (pre' & post' & ->). exists (pre ++ pre'), (post' ++ post).
  by rewrite <- !app_assoc.
Qed.

Lemma truncate_cut_to (bound : nat) (details : pystr) :
  cut_to bound details (truncate bound details).
Proof.
  split; [apply truncate_short |]. split; [apply truncate_long |].
  destruct (Nat.le_gt_cases (length details) bound) as [Hle | Hgt].
  - rewrite truncate_short by done. lia.
  - destruct (truncate_long bound details Hgt) as [_ ->]. lia.
Qed.

Lemma gtfs_format_from_app (idx : nat) (ds : list GTFS.disruption)
    (message : pystr) :
  GTFS.format_from idx ds message = message ++ GTFS.format_from idx ds [].
Proof.
  revert idx message. induction ds as [|d ds IH]; intros idx message; simpl.
  - by rewrite app_nil_r.
  - rewrite (IH _ (message ++ _)), (IH _ (GTFS.format_one idx d)).
    by rewrite app_assoc.
Qed.

(** The turn of the loop for the record at position [i] leaves its text in
    the message, numbered from the start index. *)
Lemma gtfs_format_from_lookup (idx i : nat) (ds : list GTFS.disruption)
    (d : GTFS.disruption) (message : pystr) :
  ds !! i = Some d →
  occurs_in (GTFS.format_one (idx + i) d) (GTFS.format_from idx ds message).
Proof.
  revert idx i message. induction ds as [|d' ds IH]; intros idx i message Hi.
  - done.
  - destruct i as [|i]; simpl in *.
    + injection Hi as ->. rewrite Nat.add_0_r, gtfs_format_from_app.
      exists message, (GTFS.format_from (S idx) ds []).
      by rewrite gtfs_format_from_app, <- !app_assoc.
    + replace (idx + S i) with (S idx + i) by lia. by apply IH.
Qed.

Lemma simple_format_from_app (idx : nat) (ds : list Simple.disruption)
    (message : pystr) :
  Simple.format_from idx ds message = message ++ Simple.format_from idx ds [].
Proof.
  revert idx message. induction ds as [|d ds IH]; intros idx message; simpl.
  - by rewrite app_nil_r.
  - rewrite (IH _ (message ++ _)), (IH _ (Simple.format_one idx d)).
    by rewrite app_assoc.
Qed.

Lemma simple_format_from_lookup (idx i : nat) (ds : list Simple.disruption)
    (d : Simple.disruption) (message : pystr) :
  ds !! i = Some d →
  occurs_in (Simple.format_one (idx + i) d) (Simple.format_from idx ds message).
Proof.
  revert idx i message. induction ds as [|d' ds IH]; intros idx i message Hi.
  - done.
  - destruct i as [|i]; simpl in *.
    + injection Hi as ->. rewrite Nat.add_0_r, simple_format_from_app.
      exists message, (Simple.format_from (S idx) ds []).
      by rewrite simple_format_from_app, <- !app_assoc.
    + replace (idx + S i) with (S idx + i) by lia. by apply IH.
Qed.

Lemma gtfs_message_shows (ds : list GTFS.disruption) (d : GTFS.disruption)
    (notification_type : pystr) :
  d ∈ ds →
  occurs_in (gtfs_shown d (truncate 300 (GTFS.description d)))
    (GTFS.full_message ds notification_type).
Proof.
  intros Hd. assert (truthy ds = true) as Hds by (by destruct Hd).
  apply list_elem_of_lookup in Hd as [i Hi].
  unfold GTFS.full_message, GTFS.format_disruption_message. cbv zeta.
  rewrite Hds.
  destruct (gtfs_format_from_lookup 1 i ds d [] Hi) as (pre & post & ->).
  unfold GTFS.format_one, gtfs_shown.
  exists (GTFS.notification_title notification_type ++ nl ++ pre ++ nl
          ++ py "🔴 Störning " ++ str_of_nat (1 + i) ++ py ":" ++ nl),
    (nl ++ post ++ nl
     ++ py "Kontrollera: https://sl.se/reseplanering/trafiklaget").
  by rewrite <- !app_assoc.
Qed.

Lemma simple_message_shows (ds : list Simple.disruption)
    (d : Simple.disruption) (notification_type : pystr) :
  d ∈ ds →
  occurs_in (simple_shown d (truncate 200 (default [] (Simple.details d))))
    (Simple.notification_message ds notification_type).
Proof.
  intros Hd. assert (truthy ds = true) as Hds by (by destruct Hd).
  apply list_elem_of_lookup in Hd as [i Hi].
  unfold Simple.notification_message. cbv zeta. rewrite Hds.
  destruct (simple_format_from_lookup 1 i ds d
              (Simple.notification_title notification_type ++ nl ++ nl) Hi)
    as (pre & post & ->).
  unfold Simple.format_one, simple_shown.
  exists (pre ++ str_of_nat (1 + i)),
    (nl ++ post ++ nl
     ++ py "Kontrollera: https://sl.se/reseplanering/trafiklaget").
  by rewrite <- !app_assoc.
Qed.

Lemma gtfs_sent_message (h : host) (ds : list GTFS.disruption)
    (notification_type : pystr) (x : dispatch) :
  x ∈ GTFS.send_notification h ds notification_type →
  message_of x = GTFS.full_message ds notification_type.
Proof.
  unfold GTFS.send_notification, send_desktop_notification,
    send_email_notification.
  intros Hx. apply elem_of_app in Hx as [Hx | Hx].
  - apply list_elem_of_singleton in Hx as ->. reflexivity.
  - repeat case_match; try (by apply elem_of_nil in Hx).
    apply list_elem_of_singleton in Hx as ->. reflexivity.
Qed.

Lemma simple_sent_message (h : host) (ds : list Simple.disruption)
    (notification_type : pystr) (x : dispatch) :
  x ∈ Simple.send_notification h ds notification_type →
  message_of x = Simple.notification_message ds notification_type.
Proof.
  unfold Simple.send_notification, send_email_notification. intros Hx.
  repeat case_match; try (by apply elem_of_nil in Hx).
  apply list_elem_of_singleton in Hx as ->. reflexivity.
Qed.

(** C9. In a cycle classified New, the "new" message is what every
    dispatch carries, and for each of the cycle's records it has, in one
    run: the header line; then, when the record has details, the details
    line, with the details unchanged up to the bound and else cut to the
    bound and followed by the ellipsis; then, in the identifier variant, a
    start line and an end line for each active period, each only when the
    period has that end.  The bound is 300 characters in the identifier
    variant and 200 in the count variant. *)
Theorem new_message_shows_records (h : host) :
  (∀ (previous_ids : gset pystr) (current records : list GTFS.disruption)
     (sent : list dispatch),
     GTFS.analyse h previous_ids current = (New, records, sent) →
     sent ≠ []
     ∧ (∀ x, x ∈ sent → message_of x = GTFS.full_message records (py "new"))
     ∧ (∀ d, d ∈ records →
          ∃ details,
            cut_to 300 (GTFS.description d) details
            ∧ occurs_in (gtfs_shown d details)
                (GTFS.full_message records (py "new"))))
  ∧ (∀ (start end_ : pystr) (periods : list GTFS.period),
       GTFS.format_periods (GTFS.Period start end_ :: periods)
       = (if bool_decide (start = []) then []
          else py "   Från: " ++ start ++ nl)
         ++ (if bool_decide (end_ = []) then []
             else py "   Till: " ++ end_ ++ nl)
         ++ GTFS.format_periods periods)
  ∧ (∀ (previous_count : Z) (current records : list Simple.disruption)
       (sent : list dispatch),
       Simple.analyse h previous_count current = (New, records, sent) →
       (∀ x, x ∈ sent →
          message_of x = Simple.notification_message records (py "new"))
       ∧ (∀ d, d ∈ records →
            ∃ details,
              cut_to 200 (default [] (Simple.details d)) details
              ∧ occurs_in (simple_shown d details)
                  (Simple.notification_message records (py "new")))).
Proof.
  split; [|split].
  - intros previous_ids current records sent. unfold GTFS.analyse.
    destruct (truthy current);
      [destruct (GTFS.some_id _); [|destruct (_ && _)]
      |destruct (GTFS.some_id _)]; intros Heq; simplify_eq.
    split; [done |]. split; [intros x; apply gtfs_sent_message |].
    intros d Hd. exists (truncate 300 (GTFS.description d)).
    split; [apply truncate_cut_to | by apply gtfs_message_shows].
  - intros start end_ periods. unfold GTFS.format_periods. simpl.
    rewrite <- !app_assoc. by destruct start, end_.
  - intros previous_count current records sent. unfold Simple.analyse.
    destruct (0 <? _)%Z;
      [destruct (_ =? _)%Z; [|destruct (negb _)]
      |destruct (0 <? _)%Z]; intros Heq; simplify_eq.
    split; [intros x; apply simple_sent_message |].
    intros d Hd. exists (truncate 200 (default [] (Simple.details d))).
    split; [apply truncate_cut_to | by apply simple_message_shows].
Qed.

(** A new alert with 800 characters of description and a period with a
    start and no end: each dispatch shows the header, the first 300
    characters and the ellipsis, and the start line alone. *)
Lemma new_message_shows_records_witness :
  Forall
    (λ x, occurs_in
            (py "   Inställda avgångar" ++ nl
             ++ py "   " ++ firstn 300 Sample.long_text ++ py "..." ++ nl
             ++ py "   Från: 2024-05-01T06:00:00" ++ nl)
            (message_of x))
    (GTFS.sent (GTFS.run Sample.morning (Some Sample.feed_long) Missing)).
Proof.
  destruct (new_message_shows_records Sample.morning) as (Hg & _ & _).
  destruct (Hg ∅ [Sample.record_long] [Sample.record_long]
              (GTFS.sent (GTFS.run Sample.morning (Some Sample.feed_long)
                            Missing)))
    as (_ & Hmsg & Hshown).
  - vm_compute. reflexivity.
  - destruct (Hshown Sample.record_long) as (details & Hcut & Hocc).
    + apply list_elem_of_singleton. reflexivity.
    + destruct Hcut as (_ & Hlong & _).
      rewrite Hlong in Hocc by (apply Nat.ltb_lt; vm_compute; reflexivity).
      assert (gtfs_shown Sample.record_long
                (firstn 300 (GTFS.description Sample.record_long) ++ py "...")
              = py "   Inställda avgångar" ++ nl
                ++ py "   " ++ firstn 300 Sample.long_text ++ py "..." ++ nl
                ++ py "   Från: 2024-05-01T06:00:00" ++ nl) as Hblock
        by (vm_compute; reflexivity).
      rewrite Hblock in Hocc.
      apply Forall_forall. intros x Hx. rewrite (Hmsg x Hx). exact Hocc.
Defined.

(** ** The line filter *)

Lemma affects_line_29_spec (informed : list GTFS.entity_selector) :
  GTFS.affects_line_29 informed = true
  ↔ ∃ selector r,
      selector ∈ informed ∧ GTFS.route_id selector = Some r
      ∧ occurs_in (py "29") r.
Proof.
  induction informed as [|e informed IH]; simpl.
  - split; [done |]. intros (selector & r & Hin & _). by apply elem_of_nil in Hin.
  - destruct (GTFS.route_id e) as [r|] eqn:Hroute.
    + destruct (str_in GTFS.LINE_TO_MONITOR r) eqn:Hin; simpl.
      * split; [intros _ | done]. exists e, r.
        split; [left |]. split; [done |]. by apply str_in_spec.
      * destruct (str_eqb r GTFS.LINE_TO_MONITOR) eqn:Heq.
        -- apply bool_decide_eq_true in Heq as ->.
           assert (str_in GTFS.LINE_TO_MONITOR GTFS.LINE_TO_MONITOR = true)
             by (by vm_compute).
           congruence.
        -- rewrite IH. split.
           ++ intros (selector & r' & Hsel & Hr & Hocc).
              exists selector, r'. split; [by right | done].
           ++ intros (selector & r' & Hsel & Hr & Hocc).
              apply elem_of_cons in Hsel as [-> | Hsel].
              ** rewrite Hroute in Hr. injection Hr as <-.
                 apply str_in_spec in Hocc.
                 change GTFS.LINE_TO_MONITOR with (py "29") in Hin.
                 congruence.
              ** by exists selector, r'.
    + rewrite IH. split.
      * intros (selector & r' & Hsel & Hr & Hocc).
        exists selector, r'. split; [by right | done].
      * intros (selector & r' & Hsel & Hr & Hocc).
        apply elem_of_cons in Hsel as [-> | Hsel]; [congruence |].
        by exists selector, r'.
Qed.

Lemma bound_converts_spec (h : host) (bound : option Z) :
  bound_converts h bound
  ↔ is_Some (match bound with
             | Some t => fromtimestamp h t
             | None => Some []
             end).
Proof. destruct bound as [t|]; simpl; [done |]. split; [by eexists | done]. Qed.

Lemma period_of_converts (h : host) (p : GTFS.time_range) :
  is_Some (GTFS.period_of h p) ↔ converts h p.
Proof.
  unfold GTFS.period_of, converts. rewrite !bound_converts_spec.
  destruct (match GTFS.range_start p with
            | Some t => fromtimestamp h t
            | None => Some []
            end) as [start|],
           (match GTFS.range_end p with
            | Some t => fromtimestamp h t
            | None => Some []
            end) as [end_|]; simpl.
  - split; [intros _; split; by eexists | intros _; by eexists].
  - split; [intros Hp; by apply is_Some_None in Hp
           | intros [_ He]; by apply is_Some_None in He].
  - split; [intros Hp; by apply is_Some_None in Hp
           | intros [Hs _]; by apply is_Some_None in Hs].
  - split; [intros Hp; by apply is_Some_None in Hp
           | intros [Hs _]; by apply is_Some_None in Hs].
Qed.

Lemma disruption_of_converts (h : host) (e : GTFS.feed_entity)
    (a : GTFS.alert) :
  is_Some (GTFS.disruption_of h e a)
  ↔ Forall (converts h) (GTFS.active_period a).
Proof.
  unfold GTFS.disruption_of. cbv zeta.
  assert (Forall (converts h) (GTFS.active_period a)
          ↔ is_Some (mapM (GTFS.period_of h) (GTFS.active_period a))) as ->.
  { rewrite mapM_is_Some. apply Forall_proper; [|done].
    intros p. symmetry. apply period_of_converts. }
  destruct (mapM _ _); simpl; split; intros Hs; try done;
    by apply is_Some_None in Hs.
Qed.

(** The outer loop goes through the entities it keeps, in the order of
    the feed, and builds the dictionary of each. *)
Lemma filter_entities_kept (h : host) (entities : list GTFS.feed_entity)
    (line_disruptions : list GTFS.disruption) :
  GTFS.filter_entities h entities line_disruptions
  = (rest ← mapM (λ ea, GTFS.disruption_of h ea.1 ea.2) (omap kept entities);
     Some (line_disruptions ++ rest)).
Proof.
  revert line_disruptions.
  induction entities as [|e entities IH]; intros line_disruptions; simpl.
  - by rewrite app_nil_r.
  - unfold kept at 1. destruct (GTFS.entity_alert e) as [a|]; [|apply IH].
    destruct (GTFS.affects_line_29 _); [|apply IH]. simpl.
    destruct (GTFS.disruption_of h e a) as [d|]; [|done]. simpl.
    rewrite IH. destruct (mapM _ _); [|done]. simpl.
    by rewrite <- app_assoc.
Qed.

Lemma filter_line_29_kept (h : host) (feed : GTFS.feed_message) :
  GTFS.filter_line_29 h (Some feed)
  = mapM (λ ea, GTFS.disruption_of h ea.1 ea.2) (omap kept (GTFS.entity feed)).
Proof.
  unfold GTFS.filter_line_29. rewrite filter_entities_kept.
  by destruct (mapM _ _).
Qed.

Lemma elem_of_kept (entities : list GTFS.feed_entity) (e : GTFS.feed_entity)
    (a : GTFS.alert) :
  (e, a) ∈ omap kept entities
  ↔ e ∈ entities ∧ GTFS.entity_alert e = Some a
    ∧ GTFS.affects_line_29 (GTFS.informed_entity a) = true.
Proof.
  rewrite list_elem_of_omap. unfold kept. split.
  - intros (e' & He & Hk).
    destruct (GTFS.entity_alert e') as [a'|] eqn:Halert; [|done].
    destruct (GTFS.affects_line_29 _) eqn:Ha; [|done].
    by simplify_eq.
  - intros (He & Halert & Ha). exists e. by rewrite Halert, Ha.
Qed.

(** What the filter returns has the dictionaries of the entities it keeps,
    and nothing else. *)
Lemma elem_of_filter_line_29 (h : host) (feed : GTFS.feed_message)
    (current : list GTFS.disruption) (d : GTFS.disruption) :
  GTFS.filter_line_29 h (Some feed) = Some current →
  d ∈ current
  ↔ ∃ e a,
      e ∈ GTFS.entity feed ∧ GTFS.entity_alert e = Some a
      ∧ GTFS.affects_line_29 (GTFS.informed_entity a) = true
      ∧ GTFS.disruption_of h e a = Some d.
Proof.
  rewrite filter_line_29_kept. intros Hcur. apply mapM_Some_1 in Hcur.
  split.
  - intros Hd. apply list_elem_of_lookup in Hd as [i Hi].
    destruct (Forall2_lookup_r _ _ _ _ _ Hcur Hi) as ([e a] & Hea & Hof).
    apply list_elem_of_lookup_2, elem_of_kept in Hea as (He & Halert & Ha).
    by exists e, a.
  - intros (e & a & He & Halert & Ha & Hof).
    assert ((e, a) ∈ omap kept (GTFS.entity feed)) as Hea
      by (by apply elem_of_kept).
    apply list_elem_of_lookup in Hea as [i Hi].
    destruct (Forall2_lookup_l _ _ _ _ _ Hcur Hi) as (d' & Hd' & Hof').
    simpl in Hof'. rewrite Hof in Hof'. injection Hof' as <-.
    by apply list_elem_of_lookup_2 in Hd'.
Qed.

(** The filter returns exactly when every bound of every period of the
    alerts it keeps converts. *)
Lemma filter_line_29_returns (h : host) (feed : GTFS.feed_message) :
  is_Some (GTFS.filter_line_29 h (Some feed))
  ↔ ∀ e a,
      e ∈ GTFS.entity feed → GTFS.entity_alert e = Some a →
      GTFS.affects_line_29 (GTFS.informed_entity a) = true →
      Forall (converts h) (GTFS.active_period a).
Proof.
  rewrite filter_line_29_kept, mapM_is_Some, Forall_forall. split.
  - intros Hall e a He Halert Ha. apply (disruption_of_converts h e a).
    apply (Hall (e, a)). by apply elem_of_kept.
  - intros Hall [e a] Hea. apply elem_of_kept in Hea as (He & Halert & Ha).
    apply disruption_of_converts. by apply (Hall e a).
Qed.

(** C10, as the script has it.  An alert affects the line exactly when
    one of its informed entities has a [route_id] in which "29" occurs.
    The filter builds the dictionaries of the entities with such an alert,
    in the order of the feed, and of no others; it returns them when every
    bound of their periods converts, and raises when one does not.  An
    alert of line 129, and one of line 290, is kept, and with no state
    file the cycle over it is classified New and sends the "new"
    notification of line 29 to the desktop and by e-mail. *)
Theorem line_filter_is_substring_match (h : host) :
  (∀ a : GTFS.alert,
     GTFS.affects_line_29 (GTFS.informed_entity a) = true
     ↔ ∃ selector r,
         selector ∈ GTFS.informed_entity a
         ∧ GTFS.route_id selector = Some r
         ∧ occurs_in (py "29") r)
  ∧ (∀ feed : GTFS.feed_message,
       GTFS.filter_line_29 h (Some feed)
       = mapM (λ ea, GTFS.disruption_of h ea.1 ea.2)
           (omap kept (GTFS.entity feed)))
  ∧ (∀ feed : GTFS.feed_message,
       is_Some (GTFS.filter_line_29 h (Some feed))
       ↔ ∀ e a,
           e ∈ GTFS.entity feed → GTFS.entity_alert e = Some a →
           GTFS.affects_line_29 (GTFS.informed_entity a) = true →
           Forall (converts h) (GTFS.active_period a))
  ∧ (∀ (feed : GTFS.feed_message) (current : list GTFS.disruption)
       (d : GTFS.disruption),
       GTFS.filter_line_29 h (Some feed) = Some current →
       d ∈ current
       ↔ ∃ e a,
           e ∈ GTFS.entity feed ∧ GTFS.entity_alert e = Some a
           ∧ GTFS.affects_line_29 (GTFS.informed_entity a) = true
           ∧ GTFS.disruption_of h e a = Some d)
  ∧ Forall
      (λ feed,
         let c := GTFS.run Sample.morning (Some feed) Missing in
         ∃ current,
           GTFS.filter_line_29 Sample.morning (Some feed) = Some current
           ∧ current ≠ []
           ∧ GTFS.found c = Some New
           ∧ GTFS.relevant c = current
           ∧ channels (GTFS.sent c) = [Desktop; Email]
           ∧ List.map title_of (GTFS.sent c)
             = [GTFS.notification_title (py "new");
                GTFS.notification_title (py "new")])
      [Sample.feed_129; Sample.feed_290].
Proof.
  split; [intros a; apply affects_line_29_spec |].
  split; [apply filter_line_29_kept |].
  split; [apply filter_line_29_returns |].
  split; [intros feed current d; apply elem_of_filter_line_29 |].
  repeat apply Forall_cons_2; try apply Forall_nil_2; cbv zeta.
  - exists [Sample.record_of "L129" "Inställd"]. split_and!; by vm_compute.
  - exists [Sample.record_of "L290" "Inställd"]. split_and!; by vm_compute.
Qed.

(** The alert of line 129 affects line 29: "29" stands in "129" after
    "1". *)
Lemma line_filter_is_substring_match_witness :
  GTFS.affects_line_29
    (GTFS.informed_entity (Sample.alert_on "129" "Inställd")) = true.
Proof.
  destruct (line_filter_is_substring_match Sample.morning) as (Haffects & _).
  apply Haffects. exists (GTFS.EntitySelector (Some (py "129"))), (py "129").
  split; [left |]. split; [reflexivity |]. exists (py "1"), []. reflexivity.
Defined.

(** An alert of line 29 with a period that ends at the largest timestamp
    of the feed: the alert affects the line, the end of the period does
    not convert, and the filter raises.  The cycle is left without a list
    of disruptions, without a notification and without a saved state. *)
Lemma unconvertible_period_loses_the_alert :
  let c := GTFS.run Sample.morning (Some Sample.feed_far) Missing in
  (∃ a, GTFS.entity_alert Sample.entity_far = Some a
        ∧ GTFS.route_id <$> GTFS.informed_entity a = [Some (py "29")]
        ∧ GTFS.affects_line_29 (GTFS.informed_entity a) = true)
  ∧ fromtimestamp Sample.morning 18446744073709551615 = None
  ∧ GTFS.filter_line_29 Sample.morning (Some Sample.feed_far) = None
  ∧ GTFS.raised c = true
  ∧ GTFS.found c = None
  ∧ GTFS.sent c = []
  ∧ GTFS.saved c = None
  ∧ GTFS.file_after c = Missing.
Proof.
  cbv zeta. split; [|split_and!; by vm_compute].
  eexists. split; [reflexivity |]. split; by vm_compute.
Qed.

(** * Further properties of the scripts *)

(** ** Cycles of the identifier variant, one after another *)

Section gtfs_cycles.
Import GTFS.

Lemma previous_ids_of_state_of (h : host) (ds : list disruption) :
  previous_ids_of (state_of h ds) = current_ids_of ds.
Proof. reflexivity. Qed.

Lemma analyse_same_ids (h : host) (current : list disruption) :
  ∃ t, (t = Ongoing ∨ t = NoChange)
       ∧ (analyse h (current_ids_of current) current).1.1 = t
       ∧ (analyse h (current_ids_of current) current).2 = [].
Proof.
  destruct current as [|d ds].
  - exists NoChange. rewrite current_ids_nil, analyse_none. auto.
  - exists Ongoing.
    rewrite analyse_ongoing by (done || apply difference_diag_L). auto.
Qed.

(** After a cycle that wrote its state, a cycle whose filter returns
    records with the same ids sends nothing, whatever the texts of the
    alerts have become: it is Ongoing, or no change when there are no
    ids. *)
Theorem unchanged_ids_send_nothing (h1 h2 : host) (feed1 feed2 : feed_message)
    (current1 current2 : list disruption) (file : state_file state) :
  write h1 = Written →
  filter_line_29 h1 (Some feed1) = Some current1 →
  filter_line_29 h2 (Some feed2) = Some current2 →
  current_ids_of current2 = current_ids_of current1 →
  let c1 := run h1 (Some feed1) file in
  let c2 := run h2 (Some feed2) (file_after c1) in
  sent c2 = []
  ∧ (found c2 = Some Ongoing ∨ found c2 = Some NoChange).
Proof.
  intros Hw Hfeed1 Hfeed2 Hids c1 c2. subst c1 c2.
  assert (file_after (run h1 (Some feed1) file)
          = Stored (state_of h1 current1)) as ->.
  { rewrite (run_fetched _ _ _ _ Hfeed1). cbv zeta.
    unfold file_after, save_state. by rewrite Hw. }
  rewrite (run_fetched _ _ _ _ Hfeed2). cbv zeta. unfold load_previous_state.
  rewrite previous_ids_of_state_of, <- Hids.
  destruct (analyse_same_ids h2 current2) as (t & Ht & Hfound & Hsent).
  cbn [found sent]. rewrite Hfound, Hsent. split; [done |].
  destruct Ht as [-> | ->]; auto.
Qed.

Lemma unchanged_ids_send_nothing_witness :
  let c1 := run Sample.morning (Some Sample.feed_AB) Missing in
  let c2 := run Sample.later (Some Sample.feed_AB) (file_after c1) in
  found c1 = Some New ∧ sent c2 = []
  ∧ (found c2 = Some Ongoing ∨ found c2 = Some NoChange).
Proof.
  split; [by vm_compute |].
  apply (unchanged_ids_send_nothing Sample.morning Sample.later
           Sample.feed_AB Sample.feed_AB
           [Sample.record_A; Sample.record_B]
           [Sample.record_A; Sample.record_B] Missing);
    try reflexivity; by vm_compute.
Defined.

(** When the dump of the state fails, the file is left unreadable and the
    next cycle knows no id: it reports every current record its filter
    returns as new, and when there is none it reports nothing, so that a
    resolution in between is never announced. *)
Theorem failed_dump_forgets (h1 h2 : host) (feed1 feed2 : feed_message)
    (current1 current : list disruption) (file : state_file state) :
  write h1 = DumpFailed →
  filter_line_29 h1 (Some feed1) = Some current1 →
  filter_line_29 h2 (Some feed2) = Some current →
  let c1 := run h1 (Some feed1) file in
  let c2 := run h2 (Some feed2) (file_after c1) in
  file_after c1 = Unreadable
  ∧ (current ≠ [] → found c2 = Some New ∧ relevant c2 = current)
  ∧ (current = [] → found c2 = Some NoChange ∧ sent c2 = []).
Proof.
  intros Hw Hfeed1 Hfeed2 c1 c2. subst c1 c2.
  assert (file_after (run h1 (Some feed1) file) = Unreadable) as Hfile.
  { rewrite (run_fetched _ _ _ _ Hfeed1). cbv zeta.
    unfold file_after, save_state. by rewrite Hw. }
  rewrite Hfile. split; [done |]. rewrite (run_fetched _ _ _ _ Hfeed2).
  cbv zeta.
  change (previous_ids_of (load_previous_state Unreadable))
    with (∅ : gset pystr).
  split.
  - intros Hcur.
    assert (current_ids_of current ∖ ∅ ≠ ∅) as Hnew.
    { rewrite difference_empty_L. by apply current_ids_nonempty. }
    rewrite (analyse_new h2 ∅ current Hcur Hnew). cbn [found relevant fst snd].
    split; [done |]. apply filter_all.
    intros d Hd. rewrite difference_empty_L. by apply elem_of_current_ids.
  - intros ->. by rewrite analyse_none.
Qed.

Lemma failed_dump_forgets_witness :
  let c1 := run Sample.full_disk (Some Sample.feed_AB) Missing in
  let c2 := run Sample.morning (Some Sample.feed_other) (file_after c1) in
  found c1 = Some New ∧ found c2 = Some NoChange ∧ sent c2 = [].
Proof.
  split; [by vm_compute |].
  destruct (failed_dump_forgets Sample.full_disk Sample.morning
              Sample.feed_AB Sample.feed_other
              [Sample.record_A; Sample.record_B] [] Missing eq_refl)
    as (_ & _ & Hnone); [by vm_compute | by vm_compute |].
  apply Hnone. reflexivity.
Defined.

(** Of the state file a cycle reads the set of known ids and nothing else:
    two states with the same ids, in whatever order and however often,
    with or without stored records, give the same classification, the same
    records and the same dispatches, and the same state to save. *)
Theorem only_known_ids_are_read (h : host) (fetched : option feed_message)
    (s1 s2 : state) :
  previous_ids_of s1 = previous_ids_of s2 →
  let c1 := run h fetched (Stored s1) in
  let c2 := run h fetched (Stored s2) in
  found c1 = found c2 ∧ relevant c1 = relevant c2
  ∧ sent c1 = sent c2 ∧ saved c1 = saved c2.
Proof.
  intros Hids c1 c2. subst c1 c2. destruct fetched as [feed|]; [|done].
  destruct (filter_line_29 h (Some feed)) as [current|] eqn:Hfeed.
  - rewrite !(run_fetched _ _ _ _ Hfeed). cbv zeta.
    unfold load_previous_state. by rewrite Hids.
  - by rewrite !(run_raised _ _ _ Hfeed).
Qed.

Lemma only_known_ids_are_read_witness :
  let c1 := run Sample.morning (Some Sample.feed_A) (Stored Sample.known_AB) in
  let c2 := run Sample.morning (Some Sample.feed_A) (Stored Sample.known_BAA) in
  Sample.known_AB ≠ Sample.known_BAA ∧ found c1 = Some Updated
  ∧ found c1 = found c2 ∧ relevant c1 = relevant c2
  ∧ sent c1 = sent c2 ∧ saved c1 = saved c2.
Proof.
  split; [discriminate |]. split; [by vm_compute |].
  apply (only_known_ids_are_read Sample.morning (Some Sample.feed_A)
           Sample.known_AB Sample.known_BAA).
  apply set_eq. intros x. vm_compute. set_solver.
Defined.




End gtfs_cycles.

(** ** The analysis of the identifier variant, as a table *)

Section gtfs_table.
Import GTFS.

Lemma difference_empty_subseteq (X Y : gset pystr) : X ∖ Y = ∅ ↔ X ⊆ Y.
Proof.
  split.
  - intros Hd x Hx. destruct (decide (x ∈ Y)) as [|Hn]; [done |].
    assert (x ∈ X ∖ Y) as Hin by set_solver. rewrite Hd in Hin. set_solver.
  - intros Hsub. apply set_eq. set_solver.
Qed.

(** The classification is decided by how the set of current ids lies in
    the set of known ids: New when some current id is not known, Updated
    when the current ids are known and some known id is gone, Ongoing when
    the two sets are the same, and with no current record Resolved or no
    change as some id was known or none. *)
Theorem classification_by_inclusion (h : host) (previous_ids : gset pystr)
    (current : list disruption) :
  let t := (analyse h previous_ids current).1.1 in
  let current_ids := current_ids_of current in
  (t = New ↔ current ≠ [] ∧ ¬ current_ids ⊆ previous_ids)
  ∧ (t = Updated ↔ current ≠ [] ∧ current_ids ⊂ previous_ids)
  ∧ (t = Ongoing ↔ current ≠ [] ∧ current_ids = previous_ids)
  ∧ (t = Resolved ↔ current = [] ∧ previous_ids ≠ ∅)
  ∧ (t = NoChange ↔ current = [] ∧ previous_ids = ∅).
Proof.
  intros t current_ids. subst t current_ids.
  destruct (analyse_cases h previous_ids current)
    as [[Hcur Hnew] | [(Hcur & Hnew & Hres) | [(Hcur & Hnew & Hres)
       | [[-> Hprev] | [-> ->]]]]].
  - rewrite analyse_new by done. cbn [fst snd].
    assert (¬ current_ids_of current ⊆ previous_ids) as Hsub
      by (by rewrite <- difference_empty_subseteq).
    assert (¬ current_ids_of current ⊂ previous_ids) as Hstrict
      by (intros [? _]; done).
    assert (current_ids_of current ≠ previous_ids) as Hne
      by (intros Heq; apply Hsub; by rewrite Heq).
    split_and!; (split; [intros ?; simplify_eq; done | intros [? ?]; done]).
  - rewrite analyse_updated by done. cbn [fst snd].
    apply difference_empty_subseteq in Hnew.
    assert (¬ previous_ids ⊆ current_ids_of current) as Hsup
      by (by rewrite <- difference_empty_subseteq).
    assert (current_ids_of current ⊂ previous_ids) as Hstrict by done.
    assert (current_ids_of current ≠ previous_ids) as Hne
      by (intros Heq; apply Hsup; by rewrite Heq).
    split_and!; (split; [intros ?; simplify_eq; done | intros [? ?]; done]).
  - rewrite analyse_ongoing by done. cbn [fst snd].
    apply difference_empty_subseteq in Hnew, Hres.
    assert (current_ids_of current = previous_ids) as Heq
      by (apply set_eq; set_solver).
    assert (¬ current_ids_of current ⊂ previous_ids) as Hstrict
      by (intros [_ Hn]; done).
    split_and!; (split; [intros ?; simplify_eq; done | intros [? ?]; done]).
  - rewrite analyse_resolved by done. cbn [fst snd].
    split_and!; (split; [intros ?; simplify_eq; done | intros [? ?]; done]).
  - rewrite analyse_none. cbn [fst snd].
    split_and!; (split; [intros ?; simplify_eq; done | intros [? ?]; done]).
Qed.

(** The records of a cycle classified New or Updated are never empty, so
    its message is the title over the list of records and the link, never
    the text that everything is resolved. *)
Theorem notified_records_listed (h : host) (previous_ids : gset pystr)
    (current records : list disruption) (t : transition)
    (dispatches : list dispatch) :
  analyse h previous_ids current = (t, records, dispatches) →
  t = New ∨ t = Updated →
  records ≠ []
  ∧ dispatches ≠ []
  ∧ (∀ x, x ∈ dispatches →
       title_of x
       = notification_title (if bool_decide (t = New) then py "new"
                             else py "updated")
       ∧ message_of x
         = title_of x ++ nl ++ format_disruption_message records ++ nl
           ++ py "Kontrollera: https://sl.se/reseplanering/trafiklaget").
Proof.
  intros Ha Ht.
  assert (∀ (ds : list disruption) nt x,
            ds ≠ [] → x ∈ send_notification h ds nt →
            title_of x = notification_title nt
            ∧ message_of x
              = title_of x ++ nl ++ format_disruption_message ds ++ nl
                ++ py "Kontrollera: https://sl.se/reseplanering/trafiklaget")
    as Hsend.
  { intros ds nt x Hds Hx.
    assert (title_of x = notification_title nt) as Htitle.
    { unfold send_notification, send_desktop_notification,
        send_email_notification in Hx.
      apply elem_of_app in Hx as [Hx | Hx].
      - by apply list_elem_of_singleton in Hx as ->.
      - repeat case_match; try (by apply elem_of_nil in Hx).
        by apply list_elem_of_singleton in Hx as ->. }
    split; [done |]. rewrite (gtfs_sent_message h ds nt x Hx), Htitle.
    unfold full_message. by apply truthy_true in Hds as ->. }
  destruct (analyse_cases h previous_ids current)
    as [[Hcur Hnew] | [(Hcur & Hnew & Hres) | [(Hcur & Hnew & Hres)
       | [[-> Hprev] | [-> ->]]]]].
  - rewrite analyse_new in Ha by done. simplify_eq.
    assert (filter (λ d, alert_id d ∈ current_ids_of current ∖ previous_ids)
              current ≠ []) as Hrecords.
    { apply set_choose_L in Hnew as [i Hi].
      assert (i ∈ current_ids_of current) as Hic by set_solver.
      unfold current_ids_of in Hic.
      apply elem_of_list_to_set, list_elem_of_fmap in Hic as (d & -> & Hd).
      intros Hnil.
      assert (d ∈ filter (λ d, alert_id d ∈ current_ids_of current ∖ previous_ids)
                current) as Hin by (by apply list_elem_of_filter).
      rewrite Hnil in Hin. by apply elem_of_nil in Hin. }
    split; [done |]. split; [done |]. intros x Hx.
    rewrite bool_decide_eq_true_2 by done. by apply Hsend.
  - rewrite analyse_updated in Ha by done. simplify_eq.
    split; [done |]. split; [done |]. intros x Hx.
    rewrite bool_decide_eq_false_2 by done. by apply Hsend.
  - rewrite analyse_ongoing in Ha by done. simplify_eq. by destruct Ht.
  - rewrite analyse_resolved in Ha by done. simplify_eq. by destruct Ht.
  - rewrite analyse_none in Ha. simplify_eq. by destruct Ht.
Qed.

Lemma notified_records_listed_witness :
  relevant (run Sample.morning (Some Sample.feed_AB) (Stored Sample.known_AC))
    ≠ []
  ∧ sent (run Sample.morning (Some Sample.feed_AB) (Stored Sample.known_AC))
    ≠ [].
Proof.
  destruct (notified_records_listed Sample.morning
              (previous_ids_of Sample.known_AC)
              [Sample.record_A; Sample.record_B] [Sample.record_B] New
              (sent (run Sample.morning (Some Sample.feed_AB)
                       (Stored Sample.known_AC))))
    as (Hrecords & Hsent & _).
  - vm_compute. reflexivity.
  - by left.
  - split; [|exact Hsent].
    replace (relevant (run Sample.morning (Some Sample.feed_AB)
                         (Stored Sample.known_AC)))
      with [Sample.record_B] by (vm_compute; reflexivity).
    exact Hrecords.
Defined.

End gtfs_table.

(** ** The texts the filter picks *)

Section gtfs_texts.
Import GTFS.

Lemma pick_text_fold (translations : list translation) :
  pick_text translations = fold_left pick_step translations [].
Proof. reflexivity. Qed.

Lemma pick_keeps (translations : list translation) (picked : pystr) :
  picked ≠ [] →
  Forall (λ t, language t ≠ py "sv") translations →
  fold_left pick_step translations picked = picked.
Proof.
  intros Hpicked Hforall. induction Hforall as [|t ts Ht _ IH]; [done |].
  simpl. unfold pick_step at 2. unfold str_eqb.
  rewrite bool_decide_eq_false_2 by done.
  apply truthy_true in Hpicked as Htruthy. rewrite Htruthy. simpl. exact IH.
Qed.

(** When the translations have a Swedish one with a text, and no Swedish
    one after it, that text is picked, wherever it stands among the
    others. *)
Theorem swedish_text_is_picked (before after : list translation)
    (t : translation) :
  language t = py "sv" → text t ≠ [] →
  Forall (λ u, language u ≠ py "sv") after →
  pick_text (before ++ t :: after) = text t.
Proof.
  intros Hsv Htext Hafter.
  rewrite pick_text_fold, fold_left_app. simpl.
  unfold pick_step at 2. unfold str_eqb at 1.
  rewrite bool_decide_eq_true_2 by done. simpl.
  by apply pick_keeps.
Qed.

Lemma swedish_text_is_picked_witness :
  pick_text Sample.header_translations = py "Inställda avgångar".
Proof.
  apply (swedish_text_is_picked
           [Translation (py "en") (py "Cancelled departures")]
           [Translation (py "fi") (py "Perutut vuorot")]
           (Translation (py "sv") (py "Inställda avgångar"))).
  - reflexivity.
  - discriminate.
  - repeat constructor. by vm_compute.
Defined.

(** Without a Swedish translation the first text that is not empty is
    picked, and the empty text when there is none. *)
Theorem first_text_is_picked (translations : list translation) :
  Forall (λ u, language u ≠ py "sv") translations →
  pick_text translations
  = default [] (text <$> find (λ u, truthy (text u)) translations).
Proof.
  rewrite pick_text_fold. intros Hforall.
  induction Hforall as [|t ts Ht Hts IH]; [done |].
  simpl. unfold pick_step at 2. unfold str_eqb.
  rewrite bool_decide_eq_false_2 by done. simpl.
  destruct (truthy (text t)) eqn:Htext.
  - simpl. apply pick_keeps; [by apply truthy_true | done].
  - destruct (text t); [exact IH | discriminate].
Qed.

Lemma first_text_is_picked_witness :
  pick_text [Translation (py "en") []; Translation (py "fi") (py "Myöhässä");
             Translation (py "en") (py "Delayed")]
  = py "Myöhässä".
Proof.
  rewrite first_text_is_picked; [reflexivity |].
  repeat constructor; by vm_compute.
Defined.

(** Every record the filter returns has a header that is not empty: the
    picked text, or "Störning" when the alert has no header text or only
    empty ones. *)
Theorem kept_header_not_empty (h : host) (feed : feed_message)
    (current : list disruption) (d : disruption) :
  filter_line_29 h (Some feed) = Some current → d ∈ current →
  header d ≠ []
  ∧ ∃ e a, e ∈ entity feed ∧ entity_alert e = Some a
           ∧ alert_id d = entity_id e
           ∧ header d = (if truthy (text_of (header_text a))
                         then text_of (header_text a) else py "Störning").
Proof.
  intros Hfeed Hd.
  apply (elem_of_filter_line_29 _ _ _ _ Hfeed) in Hd
    as (e & a & He & Halert & _ & Hof).
  unfold disruption_of in Hof. cbv zeta in Hof.
  destruct (mapM _ _) as [periods|]; [|done]. injection Hof as <-.
  split.
  - simpl. destruct (truthy (text_of (header_text a))) eqn:Ht.
    + by apply truthy_true.
    + by vm_compute.
  - by exists e, a.
Qed.

Lemma kept_header_not_empty_witness :
  filter_line_29 Sample.morning (Some Sample.feed_AB)
    = Some [Sample.record_A; Sample.record_B]
  ∧ Forall (λ d, header d ≠ []) [Sample.record_A; Sample.record_B].
Proof.
  assert (filter_line_29 Sample.morning (Some Sample.feed_AB)
          = Some [Sample.record_A; Sample.record_B]) as Hfeed
    by (by vm_compute).
  split; [exact Hfeed |]. apply Forall_forall. intros d Hd.
  apply (kept_header_not_empty Sample.morning Sample.feed_AB _ d Hfeed Hd).
Defined.

(** The test [route_id == LINE_TO_MONITOR] of the filter never decides:
    a route id equal to the line has the line in it. *)
Theorem equality_test_is_subsumed (r : pystr) :
  str_in LINE_TO_MONITOR r || str_eqb r LINE_TO_MONITOR
  = str_in LINE_TO_MONITOR r.
Proof.
  destruct (str_in LINE_TO_MONITOR r) eqn:Hin; [done |]. simpl.
  unfold str_eqb. case_bool_decide as Heq; [|done].
  subst r. by vm_compute in Hin.
Qed.

End gtfs_texts.

(** ** The list of records in a message *)

Lemma gtfs_format_from_imap (idx : nat) (ds : list GTFS.disruption)
    (message : pystr) :
  GTFS.format_from idx ds message
  = message ++ concat (imap (λ i d, GTFS.format_one (idx + i) d) ds).
Proof.
  revert idx message. induction ds as [|d ds IH]; intros idx message.
  - simpl. by rewrite app_nil_r.
  - change (GTFS.format_from idx (d :: ds) message)
      with (GTFS.format_from (S idx) ds (message ++ GTFS.format_one idx d)).
    rewrite IH, imap_cons, concat_cons, Nat.add_0_r, <- app_assoc.
    do 3 f_equal. apply imap_ext. intros i x _. unfold compose. f_equal. lia.
Qed.

(** The loop of [format_disruption_message] numbers the records from 1 in
    the order of the list and joins their entries; over two lists one
    after the other, the numbers of the second go on where the first
    stopped. *)
Theorem records_numbered_in_order (ds1 ds2 : list GTFS.disruption) :
  GTFS.format_disruption_message ds1
    = concat (imap (λ i d, GTFS.format_one (S i) d) ds1)
  ∧ GTFS.format_disruption_message (ds1 ++ ds2)
    = GTFS.format_disruption_message ds1
      ++ concat (imap (λ i d, GTFS.format_one (S (length ds1 + i)) d) ds2).
Proof.
  unfold GTFS.format_disruption_message.
  rewrite !gtfs_format_from_imap. simpl. split; [done |].
  by rewrite imap_app, concat_app.
Qed.

(** ** What the desktop notifier is given *)

Lemma split_not_nil (sep : N) (s : pystr) : split sep s ≠ [].
Proof.
  induction s as [|c s IH]; simpl; [done |].
  destruct (c =? sep)%N; [done |]. by destruct (split sep s).
Qed.

Lemma join_cons_char (sep : pystr) (c : N) (piece : pystr)
    (pieces : list pystr) :
  join sep ((c :: piece) :: pieces) = c :: join sep (piece :: pieces).
Proof. by destruct pieces. Qed.

(** The pieces of a text are one more than its separators. *)
Lemma split_length (s : pystr) :
  length (split 10 s) = S (count_occ N.eq_dec s 10%N).
Proof.
  induction s as [|c s IH]; [done |]. simpl.
  destruct (N.eqb_spec c 10) as [-> | Hc].
  - simpl. destruct (N.eq_dec 10%N 10%N); [|done]. by rewrite IH.
  - pose proof (split_not_nil 10 s).
    destruct (split 10 s) eqn:Hs; [done |].
    destruct (N.eq_dec c 10%N); [done |]. simpl in *. exact IH.
Qed.

(** Joining the pieces of a text gives the text back. *)
Lemma join_split (s : pystr) : join nl (split 10 s) = s.
Proof.
  induction s as [|c s IH]; [done |]. simpl.
  pose proof (split_not_nil 10 s) as Hnil.
  destruct (N.eqb_spec c 10) as [-> | Hc].
  - destruct (split 10 s) eqn:Hs; [done |]. simpl in *. by rewrite IH.
  - destruct (split 10 s) eqn:Hs; [done |].
    rewrite join_cons_char. by rewrite IH.
Qed.

(** The first [n] pieces of a text, joined again, are its beginning. *)
Lemma join_take_split_prefix (n : nat) (s : pystr) :
  ∃ rest, s = join nl (firstn n (split 10 s)) ++ rest.
Proof.
  revert n. induction s as [|c s IH]; intros n.
  - exists []. by destruct n as [|[|n]].
  - destruct n as [|n]; [by exists (c :: s) |]. simpl.
    destruct (N.eqb_spec c 10) as [-> | Hc].
    + simpl. destruct (IH n) as [rest Hrest].
      destruct (firstn n (split 10 s)) as [|piece pieces] eqn:Htake.
      * by exists (10%N :: s).
      * exists rest. simpl. by rewrite Hrest at 1.
    + pose proof (split_not_nil 10 s) as Hnil.
      destruct (split 10 s) as [|piece pieces] eqn:Hsplit; [done |].
      destruct (IH (S n)) as [rest Hrest]. exists rest.
      change (firstn (S n) ((c :: piece) :: pieces))
        with ((c :: piece) :: firstn n pieces).
      rewrite join_cons_char. simpl. f_equal. exact Hrest.
Qed.

Lemma split_pieces_no_sep (sep : N) (s : pystr) :
  Forall (λ piece, sep ∉ piece) (split sep s).
Proof.
  induction s as [|c s IH]; simpl.
  - repeat constructor. apply not_elem_of_nil.
  - destruct (N.eqb_spec c sep) as [-> | Hc].
    + constructor; [apply not_elem_of_nil | done].
    + destruct (split sep s) as [|piece pieces].
      * repeat constructor. intros Hin.
        apply list_elem_of_singleton in Hin. done.
      * apply Forall_cons in IH as [Hpiece Hpieces].
        constructor; [|done]. intros Hin.
        apply elem_of_cons in Hin as [Heq | Hin]; [by subst | done].
Qed.

Lemma count_occ_not_in (c : N) (s : pystr) :
  c ∉ s → count_occ N.eq_dec s c = 0.
Proof.
  intros Hc. apply count_occ_not_In. by rewrite <- list_elem_of_In.
Qed.

Lemma join_newlines (pieces : list pystr) :
  Forall (λ piece, (10%N : N) ∉ piece) pieces →
  count_occ N.eq_dec (join nl pieces) 10%N = length pieces - 1.
Proof.
  induction 1 as [|piece pieces Hpiece Hpieces IH]; [done |].
  destruct pieces as [|piece' pieces].
  - simpl. by rewrite count_occ_not_in.
  - change (join nl (piece :: piece' :: pieces))
      with (piece ++ nl ++ join nl (piece' :: pieces)).
    rewrite !count_occ_app, IH, count_occ_not_in by done. simpl. lia.
Qed.

Lemma count_occ_take_le (c : N) (n : nat) (s : pystr) :
  count_occ N.eq_dec (firstn n s) c ≤ count_occ N.eq_dec s c.
Proof.
  rewrite <- (take_drop n s) at 2. rewrite count_occ_app. lia.
Qed.

(** The short message handed to the notifier is the beginning of the
    message, of 300 characters and five lines at most; a message within
    both bounds is handed over whole. *)
Theorem short_message_is_a_beginning (message : pystr) :
  (∃ rest, message = Notifier.short_msg message ++ rest)
  ∧ length (Notifier.short_msg message) ≤ 300
  ∧ count_occ N.eq_dec (Notifier.short_msg message) 10%N ≤ 4
  ∧ (length message ≤ 300 → count_occ N.eq_dec message 10%N ≤ 4 →
     Notifier.short_msg message = message).
Proof.
  unfold Notifier.short_msg.
  destruct (join_take_split_prefix 5 message) as [rest Hrest].
  set (joined := join nl (firstn 5 (split 10 message))) in *.
  assert (count_occ N.eq_dec joined 10%N ≤ 4) as Hlines.
  { subst joined. rewrite join_newlines.
    - rewrite length_take. lia.
    - apply Forall_take, split_pieces_no_sep. }
  split; [|split; [|split]].
  - exists (skipn 300 joined ++ rest).
    by rewrite app_assoc, take_drop.
  - rewrite length_take. lia.
  - etrans; [apply count_occ_take_le | done].
  - intros Hlen Hcount. subst joined.
    assert (firstn 5 (split 10 message) = split 10 message) as ->
      by (apply firstn_all2; rewrite split_length; lia).
    rewrite join_split. by apply firstn_all2.
Qed.

Lemma short_message_is_a_beginning_witness :
  Notifier.short_msg (GTFS.full_message [] (py "resolved"))
  = GTFS.full_message [] (py "resolved").
Proof.
  apply (short_message_is_a_beginning (GTFS.full_message [] (py "resolved"))).
  - apply Nat.leb_le. vm_compute. reflexivity.
  - apply Nat.leb_le. vm_compute. reflexivity.
Defined.

(** Escaping puts a backslash before every double quote and leaves every
    other character as it is: in the escaped text a double quote always
    comes after a backslash, taking the escapes out gives the text back,
    and a text without double quotes is not changed at all, whatever else
    is in it. *)
Theorem escaping_only_touches_quotes (s : pystr) :
  (∀ before after,
     Notifier.escape_double s = before ++ double_quote :: after →
     ∃ before', before = before' ++ [backslash])
  ∧ List.filter (λ c, negb (c =? backslash)%N) (Notifier.escape_double s)
    = List.filter (λ c, negb (c =? backslash)%N) s
  ∧ length (Notifier.escape_double s)
    = length s + count_occ N.eq_dec s double_quote
  ∧ (double_quote ∉ s → Notifier.escape_double s = s).
Proof.
  unfold Notifier.escape_double, replace. split; [|split; [|split]].
  - induction s as [|c s IH]; intros before after Heq.
    + by destruct before.
    + simpl in Heq. destruct (N.eqb_spec c double_quote) as [-> | Hc].
      * destruct before as [|b0 [|b1 before]]; simpl in Heq.
        -- discriminate.
        -- injection Heq as <- _. by exists [].
        -- injection Heq as <- <- Heq.
           destruct (IH _ _ Heq) as [before' ->].
           by exists (backslash :: double_quote :: before').
      * destruct before as [|b0 before]; simpl in Heq.
        -- injection Heq as Hc' _. done.
        -- injection Heq as <- Heq.
           destruct (IH _ _ Heq) as [before' ->]. by exists (c :: before').
  - induction s as [|c s IH]; [done |]. simpl.
    destruct (N.eqb_spec c double_quote) as [-> | Hc].
    + simpl. by rewrite IH.
    + simpl. destruct (negb (c =? backslash)%N); by rewrite IH.
  - induction s as [|c s IH]; [done |]. simpl.
    destruct (N.eqb_spec c double_quote) as [-> | Hc].
    + destruct (N.eq_dec double_quote double_quote); [|done].
      simpl. rewrite IH. lia.
    + destruct (N.eq_dec c double_quote); [done |]. simpl. by rewrite IH.
  - induction s as [|c s IH]; [done |]. intros Hnot.
    apply not_elem_of_cons in Hnot as [Hc Hs]. simpl.
    destruct (N.eqb_spec double_quote c) as [Heq | _]; [done |].
    destruct (N.eqb_spec c double_quote) as [Heq | _]; [done |].
    simpl. by rewrite IH.
Qed.

(** A title with a command substitution and no double quote reaches the
    command line as it is. *)
Lemma escaping_only_touches_quotes_witness :
  Notifier.send_desktop_notification (py "Linux") (py "$(reboot)") (py "29")
  = Notifier.Command
      (py "notify-send " ++ [double_quote] ++ py "$(reboot)" ++ [double_quote]
       ++ py " " ++ [double_quote] ++ py "29" ++ [double_quote]).
Proof.
  destruct (escaping_only_touches_quotes (py "$(reboot)")) as (_ & _ & _ & H).
  change (Notifier.send_desktop_notification (py "Linux") (py "$(reboot)")
            (py "29"))
    with (Notifier.Command
            (py "notify-send " ++ [double_quote]
             ++ Notifier.escape_double (py "$(reboot)") ++ [double_quote]
             ++ py " " ++ [double_quote] ++ py "29" ++ [double_quote])).
  rewrite H; [reflexivity |]. apply (bool_decide_unpack _). by vm_compute.
Defined.

(** ** The count variant *)

(** The count variant sends an e-mail only when the count passes from
    zero to some, or from some to zero; in every other cycle, also one in
    which the number of disruptions grows or shrinks, it sends nothing. *)
Theorem simple_mails_at_zero_crossings (h : host) (previous_count : Z)
    (current : list Simple.disruption) :
  (Simple.analyse h previous_count current).2 ≠ [] →
  (current ≠ [] ∧ previous_count = 0%Z)
  ∨ (current = [] ∧ (0 < previous_count)%Z).
Proof.
  unfold Simple.analyse. destruct current as [|d ds].
  - simpl. destruct (Z.ltb_spec 0 previous_count); [by right | done].
  - change (0 <? Z.of_nat (length (d :: ds)))%Z with true. cbv iota.
    destruct (Z.eqb_spec previous_count 0) as [-> | Hne]; [by left |].
    destruct (negb _); cbn [snd]; [|done].
    rewrite <- (app_nil_r (Simple.send_notification _ _ _)).
    intros Hsent. exfalso. apply Hsent. rewrite app_nil_r.
    unfold Simple.send_notification.
    by destruct simple_emailed as (_ & -> & _).
Qed.

(** Nothing counted, one disruption now: an e-mail is sent. *)
Lemma simple_mails_at_zero_crossings_witness :
  (Simple.analyse Sample.morning 0 [Sample.simple_one]).2 ≠ []
  ∧ (([Sample.simple_one] ≠ [] ∧ 0%Z = 0%Z)
     ∨ ([Sample.simple_one] = [] ∧ (0 < 0)%Z)).
Proof.
  split; [by vm_compute |].
  apply (simple_mails_at_zero_crossings Sample.morning 0 [Sample.simple_one]).
  by vm_compute.
Defined.

(** After a cycle of the count variant that wrote its state, a cycle that
    finds as many disruptions, whichever they are, sends nothing. *)
Theorem simple_same_count_sends_nothing (h1 h2 : host)
    (current1 current2 : list Simple.disruption)
    (file : state_file Simple.state) :
  write h1 = Written → length current2 = length current1 →
  let c1 := Simple.run h1 (Some current1) file in
  let c2 := Simple.run h2 (Some current2) (Simple.file_after c1) in
  Simple.sent c2 = []
  ∧ (Simple.found c2 = Some Ongoing ∨ Simple.found c2 = Some NoChange).
Proof.
  intros Hw Hlen c1 c2. subst c1 c2.
  assert (Simple.file_after (Simple.run h1 (Some current1) file)
          = Stored (Simple.state_of h1 current1)) as ->.
  { unfold Simple.run. destruct (Simple.analyse _ _ _) as [[? ?] ?].
    cbn [Simple.file_after]. unfold Simple.save_state. by rewrite Hw. }
  unfold Simple.run. cbn [Simple.load_previous_state Simple.state_of
    Simple.count default from_option]. rewrite <- Hlen.
  unfold Simple.analyse. destruct current2 as [|d ds]; [simpl; auto |].
  change (0 <? Z.of_nat (length (d :: ds)))%Z with true. cbv iota.
  destruct (Z.eqb_spec (Z.of_nat (length (d :: ds))) 0) as [Hz | _];
    [simpl in Hz; lia |].
  rewrite Z.eqb_refl. simpl. auto.
Qed.

Lemma simple_same_count_sends_nothing_witness :
  let c1 := Simple.run Sample.morning (Some [Sample.simple_one]) Missing in
  let c2 := Simple.run Sample.later (Some [Sample.simple_one])
              (Simple.file_after c1) in
  Simple.found c1 = Some New ∧ Simple.sent c2 = [].
Proof.
  split; [by vm_compute |].
  apply (simple_same_count_sends_nothing Sample.morning Sample.later
           [Sample.simple_one] [Sample.simple_one] Missing); reflexivity.
Defined.

(** ** The filter of the count variant *)

Lemma flat_map_replicate {A B : Type} (P : A → Prop)
    `{!∀ x, Decision (P x)} (ys : list B) (l : list A) :
  flat_map (λ x, if bool_decide (P x) then ys else []) l
  = concat (replicate (length (filter P l)) ys).
Proof.
  induction l as [|x l IH]; [done |]. simpl. rewrite IH.
  case_bool_decide as Hx.
  - by rewrite filter_cons_True.
  - by rewrite filter_cons_False.
Qed.

(** The events of an item are gone through once for each of its traffic
    types that is a bus: an item that lists the bus [n] times gives each
    of its events on the line [n] times, and an item without traffic types
    or without a bus gives none. *)
Theorem events_repeat_per_bus_type (lower : pystr → pystr) (i : Feed.item) :
  let buses :=
    length (filter (λ t, Feed.type_name t = Some (py "bus"))
              (default [] (Feed.TrafficTypes i))) in
  let on_line := Feed.events_for_line lower (default [] (Feed.Events i)) in
  Feed.item_disruptions lower i = concat (replicate buses on_line)
  ∧ length (Feed.item_disruptions lower i) = buses * length on_line.
Proof.
  intros buses on_line.
  assert (Feed.item_disruptions lower i = concat (replicate buses on_line))
    as Heq.
  { unfold Feed.item_disruptions. subst buses on_line.
    destruct (Feed.TrafficTypes i) as [traffic_types|]; [|done].
    apply (flat_map_replicate (λ t, Feed.type_name t = Some (py "bus"))). }
  split; [exact Heq |]. rewrite Heq. clear Heq.
  induction buses as [|n IH]; [done |]. simpl.
  rewrite length_app, IH. lia.
Qed.

(** Every record the filter keeps has a header and details, so the header
    that [send_notification] falls back on is never shown for them; a
    record from the API is an event whose message or expanded text
    mentions the line, and what [scrape_sl_website] found gives one record
    at most. *)
Theorem simple_records_have_their_keys (lower : pystr → pystr) (h : host)
    (data : Feed.data) (d : Simple.disruption) :
  d ∈ Feed.filter_line_29 lower h data →
  (∃ header details,
     Simple.header d = Some header ∧ Simple.details d = Some details
     ∧ (Feed.source data ≠ Some (py "website_scraping") →
        Feed.mentions_line lower header details = true))
  ∧ (Feed.source data = Some (py "website_scraping") →
     Feed.filter_line_29 lower h data = [d]).
Proof.
  unfold Feed.filter_line_29. destruct (Feed.is_empty data).
  { intros Hd. by apply elem_of_nil in Hd. }
  case_bool_decide as Hsource.
  - destruct (default false (Feed.has_disruption data)).
    + intros Hd. apply list_elem_of_singleton in Hd as ->.
      split; [|done]. eexists _, _. by repeat split.
    + intros Hd. by apply elem_of_nil in Hd.
  - destruct (Feed.ResponseData data) as [items|];
      [|intros Hd; by apply elem_of_nil in Hd].
    rewrite list_elem_of_In, in_flat_map. intros (i & _ & Hd).
    unfold Feed.item_disruptions in Hd.
    destruct (Feed.TrafficTypes i) as [traffic_types|]; [|done].
    apply in_flat_map in Hd as (t & _ & Hd).
    case_bool_decide; [|done].
    apply in_flat_map in Hd as (e & _ & Hd).
    destruct (Feed.mentions_line lower _ _) eqn:Hmentions; [|done].
    destruct Hd as [<- | []]. split; [|done].
    eexists _, _. by repeat split.
Qed.

Lemma simple_records_have_their_keys_witness :
  Forall (λ d, is_Some (Simple.header d) ∧ is_Some (Simple.details d))
    (Feed.filter_line_29 latin1_lower Sample.morning Sample.api_data)
  ∧ length (Feed.filter_line_29 latin1_lower Sample.morning Sample.api_data)
    = 2.
Proof.
  split; [|by vm_compute].
  apply Forall_forall. intros d Hd.
  destruct (simple_records_have_their_keys latin1_lower Sample.morning
              Sample.api_data d Hd) as [(header & details & -> & -> & _) _].
  by split.
Defined.

Lemma str_in_first_char (c : N) (needle hay : pystr) :
  str_in (c :: needle) hay = true → c ∈ hay.
Proof.
  intros Hin. apply str_in_spec in Hin as (before & after & ->).
  apply elem_of_app. right. left.
Qed.

(** In [scrape_sl_website] the name of the line is looked for, with its
    capital letter, in the page in lower case, where no capital N is left:
    the name never counts, and the page mentions the line only when it has
    "29" in it. *)
Theorem scraped_name_never_counts (lower : pystr → pystr)
    (content : pystr) :
  (∀ s, (78%N : N) ∉ lower s) →
  Feed.scrape_sl_website lower (Some (200%Z, content))
  = Some {| Feed.source := Some (py "website_scraping");
            Feed.has_disruption :=
              Some (str_in (py "29") content
                    && (str_in (py "störning") (lower content)
                        || str_in (py "förseningar") (lower content)));
            Feed.ResponseData := None;
            Feed.other_keys := false |}.
Proof.
  intros Hlower. unfold Feed.scrape_sl_website. simpl.
  destruct (str_in (py "Näsbyparkslinjen") (lower content)) eqn:Hname.
  - exfalso. apply (Hlower content).
    assert (py "Näsbyparkslinjen" = 78%N :: tail (py "Näsbyparkslinjen"))
      as Hcapital by (by vm_compute).
    rewrite Hcapital in Hname. by apply str_in_first_char in Hname.
  - by rewrite orb_false_r.
Qed.

Lemma latin1_lower_no_capital_n (s : pystr) : (78%N : N) ∉ latin1_lower s.
Proof.
  unfold latin1_lower. intros Hin.
  apply list_elem_of_fmap in Hin as (c & Hc & _).
  destruct ((65 <=? c) && (c <=? 90))%N eqn:Hcap.
  - apply andb_prop in Hcap as [H1 H2].
    apply N.leb_le in H1, H2. lia.
  - destruct ((192 <=? c) && (c <=? 222) && negb (c =? 215))%N eqn:Hlat.
    + apply andb_prop in Hlat as [Hlat _]. apply andb_prop in Hlat as [H1 _].
      apply N.leb_le in H1. lia.
    + subst c. discriminate.
Qed.

(** A page that names the line and a disturbance, without the number. *)
Lemma scraped_name_never_counts_witness :
  Feed.has_disruption
    <$> Feed.scrape_sl_website latin1_lower
          (Some (200%Z, py "Näsbyparkslinjen: störning i trafiken"))
  = Some (Some false).
Proof.
  rewrite (scraped_name_never_counts latin1_lower _ latin1_lower_no_capital_n).
  by vm_compute.
Defined.

(** ** The page check of the flag variant *)

Lemma collect_context_bounds (all_lines lines relevant_context : list pystr)
    (i : nat) :
  Forall (λ e, 50 < length e ≤ 300) relevant_context →
  Forall (λ e, 50 < length e ≤ 300)
    (Page.collect_context all_lines i lines relevant_context).
Proof.
  revert i relevant_context.
  induction lines as [|line lines IH]; intros i relevant_context Hacc; [done |].
  simpl. destruct (_ || _); [|by apply IH].
  match goal with
  | |- context [Nat.ltb 50 ?n] =>
      destruct (Nat.ltb_spec 50 n) as [Hlong | _]; [|by apply IH]
  end.
  apply IH. apply Forall_app. split; [done |].
  apply Forall_singleton. rewrite length_take. lia.
Qed.

(** What the page check returns always says whether there is a
    disruption.  When there is, it comes with one or two pieces of
    context, each of 300 characters at most: pieces of the page of more
    than 50 characters, or the one text "Störning upptäckt" when the page
    gave none.  When there is not, it comes without context. *)
Theorem page_context_is_bounded (h : host) (content : pystr) :
  let r := Page.check_content h content in
  (UltraSimple.has_disruption r = Some true
   ∧ ∃ entries,
       UltraSimple.context r = Some entries
       ∧ 1 ≤ length entries ≤ 2
       ∧ Forall (λ e, length e ≤ 300) entries
       ∧ (entries = [py "Störning upptäckt"]
          ∨ Forall (λ e, 50 < length e) entries))
  ∨ (UltraSimple.has_disruption r = Some false
     ∧ UltraSimple.context r = None).
Proof.
  intros r. subst r. unfold Page.check_content.
  destruct (_ && _); [left | by right]. split; [done |].
  cbn [UltraSimple.context].
  pose proof (collect_context_bounds (split 10 content) (split 10 content)
                [] 0 (Forall_nil_2 _)) as Hbounds.
  destruct (Page.collect_context _ 0 _ []) as [|e1 entries] eqn:Hcollect.
  - eexists. split; [done |]. split; [simpl; lia |].
    split; [|by left]. apply Forall_singleton. apply Nat.leb_le.
    by vm_compute.
  - eexists. split; [done |]. cbn [truthy].
    assert (Forall (λ e, 50 < length e ≤ 300) (firstn 2 (e1 :: entries)))
      as Htake by (by apply Forall_take).
    split; [rewrite length_take; cbn [length]; lia |]. split.
    + eapply Forall_impl; [exact Htake |]. simpl. lia.
    + right. eapply Forall_impl; [exact Htake |]. simpl. lia.
Qed.

(** The body of the e-mail about a new disruption, composed from what the
    page check returned, always has the block of information from the
    page, with its first piece of context. *)
Theorem new_body_has_information (h : host) (content : pystr) :
  UltraSimple.has_disruption (Page.check_content h content) = Some true →
  ∃ entry entries,
    UltraSimple.context (Page.check_content h content)
      = Some (entry :: entries)
    ∧ occurs_in (py "Information från SL:" ++ nl ++ py "- " ++ entry ++ nl)
        (UltraSimple.new_body h (Page.check_content h content)).
Proof.
  intros Hhas.
  destruct (page_context_is_bounded h content)
    as [(_ & entries & Hcontext & [Hlen _] & _) | [Hno _]];
    [|cbv zeta in Hno; congruence].
  cbv zeta in Hcontext.
  destruct entries as [|entry entries]; [simpl in Hlen; lia |].
  exists entry, entries. split; [done |].
  unfold UltraSimple.new_body. rewrite Hcontext.
  change (default [] (Some (entry :: entries))) with (entry :: entries).
  cbn [truthy List.map concat].
  exists (py "Störning upptäckt på linje " ++ UltraSimple.LINE_TO_MONITOR
          ++ py " - " ++ UltraSimple.LINE_NAME ++ nl ++ nl),
    (concat (List.map (λ ctx, py "- " ++ ctx ++ nl) entries) ++ nl
     ++ (py "Kontrollera: " ++ UltraSimple.url ++ nl ++ nl)
     ++ (py "Upptäckt: " ++ now_strftime h)).
  by rewrite <- !app_assoc.
Qed.

Lemma new_body_has_information_witness :
  ∃ entry,
    occurs_in (py "Information från SL:" ++ nl ++ py "- " ++ entry ++ nl)
      (UltraSimple.new_body Sample.morning
         (Page.check_content Sample.morning Sample.page_text)).
Proof.
  destruct (new_body_has_information Sample.morning Sample.page_text)
    as (entry & entries & _ & Hocc).
  - by vm_compute.
  - by exists entry.
Defined.

(** The flag variant sends an e-mail only when the flag changes; after a
    cycle that wrote its state, a cycle that finds the same answer on the
    page sends nothing. *)
Theorem flag_mails_on_change (h1 h2 : host) (r1 r2 : UltraSimple.result)
    (file : state_file UltraSimple.state) :
  (UltraSimple.sent (UltraSimple.run h1 (Some r1) file) ≠ [] →
   default false (UltraSimple.has_disruption r1)
   ≠ default false
       (UltraSimple.had_disruption (UltraSimple.load_previous_state file)))
  ∧ (write h1 = Written →
     default false (UltraSimple.has_disruption r2)
     = default false (UltraSimple.has_disruption r1) →
     UltraSimple.sent
       (UltraSimple.run h2 (Some r2)
          (UltraSimple.file_after (UltraSimple.run h1 (Some r1) file)))
     = []).
Proof.
  assert (∀ h before r,
            (UltraSimple.analyse h before r).2 ≠ [] →
            default false (UltraSimple.has_disruption r) ≠ before) as Hflip.
  { intros h before r. unfold UltraSimple.analyse.
    destruct (default false (UltraSimple.has_disruption r)), before;
      simpl; done. }
  assert (∀ h r f,
            UltraSimple.sent (UltraSimple.run h (Some r) f)
            = (UltraSimple.analyse h
                 (default false
                    (UltraSimple.had_disruption
                       (UltraSimple.load_previous_state f))) r).2) as Hsent.
  { intros h r f. unfold UltraSimple.run.
    by destruct (UltraSimple.analyse _ _ _). }
  split.
  - rewrite Hsent. apply Hflip.
  - intros Hw Hsame. rewrite Hsent.
    assert (UltraSimple.file_after (UltraSimple.run h1 (Some r1) file)
            = Stored (UltraSimple.state_of h1
                        (default false (UltraSimple.has_disruption r1))))
      as ->.
    { unfold UltraSimple.run. destruct (UltraSimple.analyse _ _ _).
      cbn [UltraSimple.file_after]. unfold UltraSimple.save_state.
      by rewrite Hw. }
    change (default false
              (UltraSimple.had_disruption
                 (UltraSimple.load_previous_state
                    (Stored (UltraSimple.state_of h1
                               (default false
                                  (UltraSimple.has_disruption r1)))))))
      with (default false (UltraSimple.has_disruption r1)).
    destruct (UltraSimple.analyse h2
                (default false (UltraSimple.has_disruption r1)) r2).2
      eqn:Hdispatch; [done |].
    exfalso.
    apply (Hflip h2 (default false (UltraSimple.has_disruption r1)) r2);
      [by rewrite Hdispatch | done].
Qed.

Lemma flag_mails_on_change_witness :
  UltraSimple.sent
    (UltraSimple.run Sample.later (Some Sample.page_mentions)
       (UltraSimple.file_after
          (UltraSimple.run Sample.morning (Some Sample.page_mentions) Missing)))
  = [].
Proof.
  apply (flag_mails_on_change Sample.morning Sample.later
           Sample.page_mentions Sample.page_mentions Missing); reflexivity.
Defined.
